(** * istioctl/pkg/writer/envoy/configdump/listener.go

    A shallow embedding of the listener writer of istioctl's [configdump]
    package: the classifier [retrieveListenerType], the match predicate
    [ListenerFilter.Verify], the two printers [PrintListenerSummary] and
    [PrintListenerDump], and the extraction [retrieveSortedListenerSlice].

    Go strings and byte slices are [string] (a list of 8-bit characters),
    [uint32] values that are only compared and printed are [N], a pointer that
    may be nil is an [option], a protobuf [oneof] is an inductive type. *)

From Stdlib Require Import String Ascii List Bool ZArith NArith Lia.
From Stdlib Require Import DecimalString.
Import ListNotations.

Local Open Scope list_scope.
Local Open Scope string_scope.

(** ** Protobuf messages read by the package *)

(** [any.Any]: a type-tagged opaque value. *)
Module Any.
Record t : Type := Build { TypeUrl : string; Value : string }.

(** The nil-safe getter: a nil [*any.Any] has no bytes. *)
Definition GetValue (m : option t) : string :=
  match m with
  | Some a => Value a
  | None => ""
  end.
End Any.

(** [core.SocketAddress]: the [port_specifier] oneof holds a number, a name
    or nothing. *)
Module SocketAddress.
Inductive PortSpecifier : Type :=
| PortValue (n : N)
| NamedPort (s : string)
| NoPort.

Record t : Type := Build { Address : string; Port : PortSpecifier }.

(** [GetPortValue] on a possibly nil [*SocketAddress]. *)
Definition GetPortValue (m : option t) : N :=
  match m with
  | Some sa =>
      match Port sa with
      | PortValue n => n
      | _ => 0%N
      end
  | None => 0%N
  end.
End SocketAddress.

(** [core.Address]: the [address] oneof holds a socket address, a pipe or
    nothing. *)
Module Address.
Inductive t : Type :=
| SocketAddress (sa : SocketAddress.t)
| Pipe (path : string)
| Unset.

(** [GetSocketAddress] on a possibly nil [*Address]: nil unless the oneof
    holds a socket address. *)
Definition GetSocketAddress (m : option t) : option SocketAddress.t :=
  match m with
  | Some (SocketAddress sa) => Some sa
  | _ => None
  end.
End Address.

(** [listener.Filter]: a name and, in its [config_type] oneof, possibly a
    typed configuration. *)
Module Filter.
Record t : Type := Build { Name : string; TypedConfig : option Any.t }.

Definition GetTypedConfig (m : t) : option Any.t := TypedConfig m.
End Filter.

Module FilterChain.
Record t : Type := Build { Filters : list Filter.t }.

Definition GetFilters (m : t) : list Filter.t := Filters m.
End FilterChain.

(** [listener.Listener], with the fields the package reads. *)
Module Listener.
Record t : Type := Build {
  Name : string;
  Address : option Address.t;
  FilterChains : list FilterChain.t
}.

Definition GetFilterChains (m : t) : list FilterChain.t := FilterChains m.
End Listener.

(** [adminapi.ListenersConfigDump] and its entries. *)
Module DynamicListenerState.
Record t : Type := Build { VersionInfo : string; Listener : option Any.t }.
End DynamicListenerState.

Module DynamicListener.
Record t : Type := Build {
  Name : string;
  ActiveState : option DynamicListenerState.t;
  WarmingState : option DynamicListenerState.t
}.
End DynamicListener.

Module StaticListener.
Record t : Type := Build { Listener : option Any.t }.
End StaticListener.

Module ListenersConfigDump.
Record t : Type := Build {
  StaticListeners : list StaticListener.t;
  DynamicListeners : list DynamicListener.t
}.
End ListenersConfigDump.

(** ** Errors, panics and observable events *)

(** A Go [error] value that is not nil, by its message. *)
Definition error : Type := string.

(** A Go result pair [(v, err)]: either a value with a nil error, or an
    error. *)
Inductive result (T : Type) : Type :=
| Ok (v : T)
| Err (e : error).
Arguments Ok {T} v.
Arguments Err {T} e%_string.

(** What a call does besides returning: the helper calls whose number the
    specification speaks about, and the bytes that reach [c.Stdout]. *)
Inductive event : Type :=
| EvClassify (l : Listener.t)     (* a call of retrieveListenerType *)
| EvUnmarshal (a : Any.t)         (* a call of ptypes.UnmarshalAny *)
| EvStdout (s : string).          (* a write to c.Stdout *)

(** How a call ends: it returns, or the Go run time panics. *)
Inductive outcome (A : Type) : Type :=
| Returns (a : A)
| Panics (msg : string).
Arguments Returns {A} a.
Arguments Panics {A} msg.

(** A computation: the events it produced, in order, and how it ended. *)
Definition M (A : Type) : Type := (list event * outcome A)%type.

Definition ret {A} (a : A) : M A := ([], Returns a).

Definition bind {A B} (m : M A) (k : A -> M B) : M B :=
  match m with
  | (t, Returns a) => let (t', r) := k a in ((t ++ t')%list, r)
  | (t, Panics msg) => (t, Panics msg)
  end.

Definition tell (e : event) : M unit := ([e], Returns tt).

Definition panic {A} (msg : string) : M A := ([], Panics msg).

Declare Scope go_scope.
Delimit Scope go_scope with go.
Notation "x <- c ;; k" := (bind c (fun x => k))
  (at level 61, c at next level, right associativity) : go_scope.
Notation "c ;;; k" := (bind c (fun _ => k))
  (at level 61, right associativity) : go_scope.

Definition trace {A} (m : M A) : list event := fst m.
Definition ending {A} (m : M A) : outcome A := snd m.

(** The bytes written to [c.Stdout], and the payloads handed to the decoder. *)
Fixpoint stdout_of (t : list event) : string :=
  match t with
  | [] => ""
  | EvStdout s :: t' => s ++ stdout_of t'
  | _ :: t' => stdout_of t'
  end.

Fixpoint unmarshalled (t : list event) : list Any.t :=
  match t with
  | [] => []
  | EvUnmarshal a :: t' => a :: unmarshalled t'
  | _ :: t' => unmarshalled t'
  end.

Fixpoint classified (t : list event) : list Listener.t :=
  match t with
  | [] => []
  | EvClassify l :: t' => l :: classified t'
  | _ :: t' => classified t'
  end.

(** ** Strings *)

Definition TAB : string := String (ascii_of_nat 9) "".
Definition NL : string := String (ascii_of_nat 10) "".

(** [strings.Contains s substr]: [substr] occurs in [s] at some offset. *)
Fixpoint Contains (s substr : string) : bool :=
  if prefix substr s then true
  else
    match s with
    | "" => false
    | String _ s' => Contains s' substr
    end.

(** [%v] of a [uint32]: its decimal digits. *)
Definition format_uint (n : N) : string := NilZero.string_of_uint (N.to_uint n).

(** ** What the package imports

    The functions, constants and types of other packages that the file uses
    and that are not part of it. Every theorem below holds for any
    implementation of them. *)
Class Imports : Type := {
  (** [util.BlackHoleCluster], the name of the black-hole cluster. *)
  BlackHoleCluster : string;
  (** [v3.ListenerType], the type URL of a v3 listener. *)
  ListenerType : string;
  (** [strings.EqualFold]: equality under Unicode case folding. *)
  EqualFold : string -> string -> bool;
  (** [ptypes.UnmarshalAny] into a fresh [listener.Listener]. *)
  UnmarshalAny : Any.t -> result Listener.t;
  (** [configdump.Wrapper] and its method [GetListenerConfigDump]. *)
  Wrapper : Type;
  GetListenerConfigDump : Wrapper -> result ListenersConfigDump.t;
  (** [json.MarshalIndent] of a [protio.MessageSlice], with its prefix and
      indent. *)
  MarshalIndent : list Listener.t -> string -> string -> result string;
  (** What a [tabwriter.Writer] initialised with [Init(out, 0, 8, 5, ' ', 0)]
      emits on [Flush] for the text written to it. *)
  tabwriter_format : string -> string
}.

(** ** The code *)

Definition HTTPListener : string := "envoy.http_connection_manager".

Definition TCPListener : string := "envoy.tcp_proxy".

Module ListenerFilter.
Record t : Type := Build { Address : string; Port : N; Type' : string }.
End ListenerFilter.

Section Code.
Context `{Imports}.

(** [ConfigWriter]: its [Stdout] is the [EvStdout] events of a computation;
    [configDump] is a pointer that is nil until the writer is primed. *)
Record ConfigWriter : Type := { configDump : option Wrapper }.

(** The body of the inner loop of [retrieveListenerType], on the counters
    [(nHTTP, nTCP)]. The counters are Go [int]s that count filters held in
    memory, so they stay far below [2^63] and never wrap. *)
Definition count_filter (n : Z * Z) (filter : Filter.t) : Z * Z :=
  let '(nHTTP, nTCP) := n in
  if Filter.Name filter =? HTTPListener then (nHTTP + 1, nTCP)%Z
  else if Filter.Name filter =? TCPListener then
    if negb (Contains (Any.GetValue (Filter.GetTypedConfig filter)) BlackHoleCluster)
    then (nHTTP, nTCP + 1)%Z
    else (nHTTP, nTCP)
  else (nHTTP, nTCP).

(** The two nested loops. *)
Definition count_filters (l : Listener.t) : Z * Z :=
  fold_left
    (fun n filterChain => fold_left count_filter (FilterChain.GetFilters filterChain) n)
    (Listener.GetFilterChains l) (0, 0)%Z.

Definition retrieveListenerType (l : Listener.t) : string :=
  let '(nHTTP, nTCP) := count_filters l in
  if (nHTTP >? 0)%Z then
    if (nTCP =? 0)%Z then "HTTP" else "HTTP+TCP"
  else if (nTCP >? 0)%Z then "TCP"
  else "UNKNOWN".

(** [l.Address.GetSocketAddress().Address]: the getter is nil-safe, the
    field access after it is not. *)
Definition retrieveListenerAddress (l : Listener.t) : M string :=
  match Address.GetSocketAddress (Listener.Address l) with
  | Some sa => ret (SocketAddress.Address sa)
  | None => panic "runtime error: invalid memory address or nil pointer dereference"
  end.

(** [l.Address.GetSocketAddress().GetPortValue()]: nil-safe throughout. *)
Definition retrieveListenerPort (l : Listener.t) : N :=
  SocketAddress.GetPortValue (Address.GetSocketAddress (Listener.Address l)).

(** A call of [retrieveListenerType], recorded. *)
Definition call_retrieveListenerType (l : Listener.t) : M string :=
  (tell (EvClassify l) ;;; ret (retrieveListenerType l))%go.

(** [ListenerFilter.Verify]. Go's [&&] evaluates its right operand only
    when the left one is true. *)
Definition Verify (l : ListenerFilter.t) (listener : Listener.t) : M bool :=
  (if (ListenerFilter.Address l =? "") && (ListenerFilter.Port l =? 0)%N
      && (ListenerFilter.Type' l =? "")
   then ret true
   else
     c1 <- (if negb (ListenerFilter.Address l =? "")
            then a <- retrieveListenerAddress listener ;;
                 ret (negb (EqualFold a (ListenerFilter.Address l)))
            else ret false) ;;
     if c1 then ret false
     else if negb (ListenerFilter.Port l =? 0)%N
             && negb (retrieveListenerPort listener =? ListenerFilter.Port l)%N
     then ret false
     else
       c3 <- (if negb (ListenerFilter.Type' l =? "")
              then t <- call_retrieveListenerType listener ;;
                   ret (negb (EqualFold t (ListenerFilter.Type' l)))
              else ret false) ;;
       if c3 then ret false else ret true)%go.

(** The payload with its [TypeUrl] overwritten, as the extraction does in
    place before it decodes. *)
Definition setTypeUrl (a : Any.t) (u : string) : Any.t :=
  Any.Build u (Any.Value a).

(** [ptypes.UnmarshalAny], recorded. *)
Definition call_UnmarshalAny (a : Any.t) : M (result Listener.t) :=
  (tell (EvUnmarshal a) ;;; ret (UnmarshalAny a))%go.

(** The loop over [listenerDump.DynamicListeners]; [listeners] is the slice
    built so far. It ends with the slice, or with the error of an early
    return. *)
Fixpoint dynamic_loop (entries : list DynamicListener.t) (listeners : list Listener.t)
  : M (result (list Listener.t)) :=
  match entries with
  | [] => ret (Ok listeners)
  | l :: rest =>
      match DynamicListener.ActiveState l with
      | Some st =>
          match DynamicListenerState.Listener st with
          | Some a =>
              (r <- call_UnmarshalAny (setTypeUrl a ListenerType) ;;
               match r with
               | Err err => ret (Err ("unmarshal listener: " ++ err))
               | Ok listenerTyped => dynamic_loop rest (listeners ++ [listenerTyped])
               end)%go
          | None => dynamic_loop rest listeners
          end
      | None => dynamic_loop rest listeners
      end
  end.

(** The loop over [listenerDump.StaticListeners]. *)
Fixpoint static_loop (entries : list StaticListener.t) (listeners : list Listener.t)
  : M (result (list Listener.t)) :=
  match entries with
  | [] => ret (Ok listeners)
  | l :: rest =>
      match StaticListener.Listener l with
      | Some a =>
          (r <- call_UnmarshalAny (setTypeUrl a ListenerType) ;;
           match r with
           | Err err => ret (Err ("unmarshal listener: " ++ err))
           | Ok listenerTyped => static_loop rest (listeners ++ [listenerTyped])
           end)%go
      | None => static_loop rest listeners
      end
  end.

Definition retrieveSortedListenerSlice (c : ConfigWriter)
  : M (result (list Listener.t)) :=
  match configDump c with
  | None => ret (Err "config writer has not been primed")
  | Some w =>
      match GetListenerConfigDump w with
      | Err err => ret (Err ("listener dump: " ++ err))
      | Ok listenerDump =>
          (r1 <- dynamic_loop (ListenersConfigDump.DynamicListeners listenerDump) [] ;;
           match r1 with
           | Err e => ret (Err e)
           | Ok listeners =>
               r2 <- static_loop (ListenersConfigDump.StaticListeners listenerDump) listeners ;;
               match r2 with
               | Err e => ret (Err e)
               | Ok listeners =>
                   if (length listeners =? 0)%nat
                   then ret (Err "no listeners found")
                   else ret (Ok listeners)
               end
           end)%go
      end
  end.

(** [setupListenerConfigWriter]: the listeners and a fresh tab writer, whose
    buffer is the empty text. *)
Definition setupListenerConfigWriter (c : ConfigWriter)
  : M (result (string * list Listener.t)) :=
  (r <- retrieveSortedListenerSlice c ;;
   match r with
   | Err err => ret (Err err)
   | Ok listeners => ret (Ok ("", listeners))
   end)%go.

(** The line [fmt.Fprintf(w, "%v\t%v\t%v\n", address, port, listenerType)]. *)
Definition summary_row (address : string) (port : N) (listenerType : string) : string :=
  address ++ TAB ++ format_uint port ++ TAB ++ listenerType ++ NL.

(** The loop of [PrintListenerSummary]; [w] is the text written to the tab
    writer so far. *)
Fixpoint summary_loop (filter : ListenerFilter.t) (listeners : list Listener.t)
  (w : string) : M string :=
  match listeners with
  | [] => ret w
  | listener :: rest =>
      (ok <- Verify filter listener ;;
       if ok : bool then
         address <- retrieveListenerAddress listener ;;
         let port := retrieveListenerPort listener in
         listenerType <- call_retrieveListenerType listener ;;
         summary_loop filter rest (w ++ summary_row address port listenerType)
       else summary_loop filter rest w)%go
  end.

Definition summary_header : string := "ADDRESS" ++ TAB ++ "PORT" ++ TAB ++ "TYPE".

(** [PrintListenerSummary]: the result is the error, [None] for nil.
    [c.Stdout] accepts every write, so [w.Flush()] returns nil. *)
Definition PrintListenerSummary (c : ConfigWriter) (filter : ListenerFilter.t)
  : M (option error) :=
  (r <- setupListenerConfigWriter c ;;
   match r with
   | Err err => ret (Some err)
   | Ok (w, listeners) =>
       let w := w ++ summary_header ++ NL in
       w <- summary_loop filter listeners w ;;
       tell (EvStdout (tabwriter_format w)) ;;;
       ret None
   end)%go.

(** The loop of [PrintListenerDump]. *)
Fixpoint dump_loop (filter : ListenerFilter.t) (listeners : list Listener.t)
  (filteredListeners : list Listener.t) : M (list Listener.t) :=
  match listeners with
  | [] => ret filteredListeners
  | listener :: rest =>
      (ok <- Verify filter listener ;;
       if ok : bool then dump_loop filter rest (filteredListeners ++ [listener])
       else dump_loop filter rest filteredListeners)%go
  end.

Definition PrintListenerDump (c : ConfigWriter) (filter : ListenerFilter.t)
  : M (option error) :=
  (r <- setupListenerConfigWriter c ;;
   match r with
   | Err err => ret (Some err)
   | Ok (_, listeners) =>
       filteredListeners <- dump_loop filter listeners [] ;;
       match MarshalIndent filteredListeners "" "    " with
       | Err err => ret (Some ("failed to marshal listeners: " ++ err))
       | Ok out =>
           tell (EvStdout (out ++ NL)) ;;;
           ret None
       end
   end)%go.

End Code.

(** ** The specification's words for the classifier *)

Section ClassifierSpec.
Context `{Imports}.

(** All filters in all filter chains of a listener, in order. *)
Definition all_filters (l : Listener.t) : list Filter.t :=
  flat_map FilterChain.Filters (Listener.FilterChains l).

(** A filter named as the HTTP connection manager. *)
Definition is_http_filter (f : Filter.t) : bool :=
  Filter.Name f =? HTTPListener.

(** A filter named as the TCP proxy whose typed configuration contains the
    black-hole marker. *)
Definition is_black_hole_filter (f : Filter.t) : bool :=
  (Filter.Name f =? TCPListener)
  && Contains (Any.GetValue (Filter.TypedConfig f)) BlackHoleCluster.

(** A filter named as the TCP proxy whose typed configuration does not
    contain the black-hole marker. *)
Definition is_tcp_filter (f : Filter.t) : bool :=
  (Filter.Name f =? TCPListener)
  && negb (Contains (Any.GetValue (Filter.TypedConfig f)) BlackHoleCluster).

Definition http_count (l : Listener.t) : Z :=
  Z.of_nat (length (filter is_http_filter (all_filters l))).

Definition tcp_count (l : Listener.t) : Z :=
  Z.of_nat (length (filter is_tcp_filter (all_filters l))).

(** The decision table of the specification, on the two counts. *)
Definition decision_table (h t : Z) : string :=
  if (h >? 0)%Z && (t =? 0)%Z then "HTTP"
  else if (h >? 0)%Z && (t >? 0)%Z then "HTTP+TCP"
  else if (h =? 0)%Z && (t >? 0)%Z then "TCP"
  else "UNKNOWN".

(** The listener without its black-hole TCP proxy filters. *)
Definition drop_black_hole (l : Listener.t) : Listener.t :=
  Listener.Build (Listener.Name l) (Listener.Address l)
    (map (fun fc => FilterChain.Build
                      (filter (fun f => negb (is_black_hole_filter f))
                              (FilterChain.Filters fc)))
         (Listener.FilterChains l)).
End ClassifierSpec.

(** ** The specification's words for the extraction *)

Section ExtractionSpec.
Context `{Imports}.

(** The active listener payload a dynamic entry carries, if any. *)
Definition active_payload (l : DynamicListener.t) : option Any.t :=
  match DynamicListener.ActiveState l with
  | Some st => DynamicListenerState.Listener st
  | None => None
  end.

Definition present {A} (o : option A) : list A :=
  match o with
  | Some a => [a]
  | None => []
  end.

(** The payloads of the dynamic section, in encounter order. *)
Definition dynamic_payloads (d : ListenersConfigDump.t) : list Any.t :=
  flat_map (fun l => present (active_payload l)) (ListenersConfigDump.DynamicListeners d).

(** The payloads of the static section, in encounter order. *)
Definition static_payloads (d : ListenersConfigDump.t) : list Any.t :=
  flat_map (fun l => present (StaticListener.Listener l)) (ListenersConfigDump.StaticListeners d).

(** Normalise the declared type to the v3 listener type, then decode. *)
Definition decode (a : Any.t) : result Listener.t :=
  UnmarshalAny (setTypeUrl a ListenerType).

(** [ls] is the decoding of [ps], entry by entry and in the same order. *)
Definition decoded_in_order (ps : list Any.t) (ls : list Listener.t) : Prop :=
  Forall2 (fun a l => decode a = Ok l) ps ls.

(** A dump in which no entry carries a payload. *)
Definition payloadless (d : ListenersConfigDump.t) : Prop :=
  Forall (fun l => active_payload l = None) (ListenersConfigDump.DynamicListeners d)
  /\ Forall (fun l => StaticListener.Listener l = None) (ListenersConfigDump.StaticListeners d).

(** The dump without its entries that carry no payload. *)
Definition drop_payloadless (d : ListenersConfigDump.t) : ListenersConfigDump.t :=
  ListenersConfigDump.Build
    (filter (fun l => match StaticListener.Listener l with Some _ => true | None => false end)
            (ListenersConfigDump.StaticListeners d))
    (filter (fun l => match active_payload l with Some _ => true | None => false end)
            (ListenersConfigDump.DynamicListeners d)).
(** The payloads of the whole dump: the dynamic ones, then the static
    ones. *)
Definition payloads (d : ListenersConfigDump.t) : list Any.t :=
  dynamic_payloads d ++ static_payloads d.

(** The payload as the decoder receives it. *)
Definition normalise (a : Any.t) : Any.t := setTypeUrl a ListenerType.

(** Decoding entry by entry: the listeners in order, or the decoder's error
    at the first payload that fails. *)
Fixpoint decode_all (ps : list Any.t) : result (list Listener.t) :=
  match ps with
  | [] => Ok []
  | a :: rest =>
      match decode a with
      | Err e => Err e
      | Ok l =>
          match decode_all rest with
          | Err e => Err e
          | Ok ls => Ok (l :: ls)
          end
      end
  end.

(** The payloads up to and including the first one that fails to decode. *)
Fixpoint attempted (ps : list Any.t) : list Any.t :=
  match ps with
  | [] => []
  | a :: rest =>
      match decode a with
      | Err _ => [a]
      | Ok _ => a :: attempted rest
      end
  end.
End ExtractionSpec.

(** ** The specification's words for the filter and the printers *)

Section PrinterSpec.
Context `{Imports}.

(** A listener bound to a socket address. *)
Definition socket_address (l : Listener.t) : option SocketAddress.t :=
  Address.GetSocketAddress (Listener.Address l).

Definition has_socket_address (l : Listener.t) : bool :=
  match socket_address l with
  | Some _ => true
  | None => false
  end.

(** The three checks of a filter specification on a listener bound to the
    socket address [sa]. *)
Definition address_check (f : ListenerFilter.t) (sa : SocketAddress.t) : bool :=
  (ListenerFilter.Address f =? "")
  || EqualFold (SocketAddress.Address sa) (ListenerFilter.Address f).

Definition port_check (f : ListenerFilter.t) (sa : SocketAddress.t) : bool :=
  (ListenerFilter.Port f =? 0)%N
  || (SocketAddress.GetPortValue (Some sa) =? ListenerFilter.Port f)%N.

Definition type_check (f : ListenerFilter.t) (l : Listener.t) : bool :=
  (ListenerFilter.Type' f =? "")
  || EqualFold (retrieveListenerType l) (ListenerFilter.Type' f).

Definition matches (f : ListenerFilter.t) (l : Listener.t) (sa : SocketAddress.t) : bool :=
  address_check f sa && port_check f sa && type_check f l.

(** The filter specification with all three fields unset. *)
Definition empty_filter : ListenerFilter.t := ListenerFilter.Build "" 0%N "".


(** The listeners of a collection that pass a filter, in the collection's
    order. *)
Definition passing (f : ListenerFilter.t) (ls : list Listener.t) : list Listener.t :=
  filter (fun l => match socket_address l with
                   | Some sa => matches f l sa
                   | None => false
                   end) ls.

(** Whether [Verify] reaches its type check, and so classifies. *)
Definition classifies (f : ListenerFilter.t) (sa : SocketAddress.t) : bool :=
  negb (ListenerFilter.Type' f =? "") && address_check f sa && port_check f sa.

Definition nil_dereference : string :=
  "runtime error: invalid memory address or nil pointer dereference".
End PrinterSpec.

(** ** What [Verify] and the printers do on any listener *)

Section VerdictSpec.
Context `{Imports}.

(** What [Verify] returns when it returns: on a listener that is not bound to
    a socket address the port compared is 0, the value of the nil-safe
    getter. *)
Definition verdict (f : ListenerFilter.t) (l : Listener.t) : bool :=
  match socket_address l with
  | Some sa => matches f l sa
  | None => (ListenerFilter.Port f =? 0)%N && type_check f l
  end.

(** Whether [Verify] reaches its type check. *)
Definition reaches_type_check (f : ListenerFilter.t) (l : Listener.t) : bool :=
  match socket_address l with
  | Some sa => classifies f sa
  | None => negb (ListenerFilter.Type' f =? "") && (ListenerFilter.Port f =? 0)%N
  end.

(** The listeners of a collection for which [Verify] returns true. *)
Definition selected (f : ListenerFilter.t) (ls : list Listener.t) : list Listener.t :=
  filter (verdict f) ls.

(** A filter with an address to match, on a listener without socket
    address. *)
Definition reads_nil_address (f : ListenerFilter.t) (l : Listener.t) : bool :=
  negb (ListenerFilter.Address f =? "") && negb (has_socket_address l).

End VerdictSpec.

(** ** A concrete implementation of the imports, and sample inputs *)

Module Sample.

(** Lower case of an ASCII letter. *)
Definition lower (c : ascii) : ascii :=
  let n := nat_of_ascii c in
  if (65 <=? n)%nat && (n <=? 90)%nat then ascii_of_nat (n + 32) else c.

Fixpoint lower_string (s : string) : string :=
  match s with
  | "" => ""
  | String c s' => String (lower c) (lower_string s')
  end.

(** [strings.EqualFold] on ASCII text. *)
Definition ascii_EqualFold (s t : string) : bool :=
  lower_string s =? lower_string t.

Definition http_filter : Filter.t :=
  Filter.Build "envoy.http_connection_manager" (Some (Any.Build "hcm" "stat_prefix: x")).

Definition tcp_filter : Filter.t :=
  Filter.Build "envoy.tcp_proxy" (Some (Any.Build "tcp" "cluster: outbound|9000||db")).

Definition black_hole_filter : Filter.t :=
  Filter.Build "envoy.tcp_proxy" (Some (Any.Build "tcp" "cluster: BlackHoleCluster")).

Definition other_filter : Filter.t :=
  Filter.Build "envoy.filters.network.rbac" None.

Definition at_socket (a : string) (p : N) : option Address.t :=
  Some (Address.SocketAddress (SocketAddress.Build a (SocketAddress.PortValue p))).

(** The listeners of the specification's scenarios. *)
Definition http_listener : Listener.t :=
  Listener.Build "10.0.0.1_8080" (at_socket "10.0.0.1" 8080)
                 [FilterChain.Build [http_filter]].

Definition tcp_listener : Listener.t :=
  Listener.Build "10.0.0.2_9000" (at_socket "10.0.0.2" 9000)
                 [FilterChain.Build [tcp_filter]].

Definition mixed_listener : Listener.t :=
  Listener.Build "mixed" (at_socket "0.0.0.0" 15001)
                 [FilterChain.Build [http_filter]; FilterChain.Build [tcp_filter]].

Definition black_hole_listener : Listener.t :=
  Listener.Build "virtualOutbound" (at_socket "0.0.0.0" 15001)
                 [FilterChain.Build [black_hole_filter; other_filter];
                  FilterChain.Build [black_hole_filter]].

(** A listener bound to a Unix domain socket. *)
Definition pipe_listener : Listener.t :=
  Listener.Build "agent" (Some (Address.Pipe "/var/run/agent.sock"))
                 [FilterChain.Build [tcp_filter]].

Definition v3_ListenerType : string :=
  "type.googleapis.com/envoy.config.listener.v3.Listener".

Definition v2_ListenerType : string :=
  "type.googleapis.com/envoy.api.v2.Listener".

(** A decoder that knows five payloads and rejects every other one, and
    every payload not declared as a v3 listener. *)
Definition decode_bytes (a : Any.t) : result Listener.t :=
  if Any.TypeUrl a =? v3_ListenerType then
    if Any.Value a =? "http" then Ok http_listener
    else if Any.Value a =? "tcp" then Ok tcp_listener
    else if Any.Value a =? "mixed" then Ok mixed_listener
    else if Any.Value a =? "blackhole" then Ok black_hole_listener
    else if Any.Value a =? "pipe" then Ok pipe_listener
    else Err "proto: cannot parse invalid wire-format data"
  else Err "mismatched message type".

(** A serialiser that writes the listeners' names, and rejects a listener
    without a name. *)
Fixpoint names (ls : list Listener.t) : result string :=
  match ls with
  | [] => Ok ""
  | l :: rest =>
      if Listener.Name l =? "" then Err "json: error calling MarshalJSON"
      else
        match names rest with
        | Ok s => Ok (Listener.Name l ++ " " ++ s)
        | Err e => Err e
        end
  end.

Definition marshal (ls : list Listener.t) (prefix indent : string) : result string :=
  match names ls with
  | Ok s => Ok ("[" ++ NL ++ prefix ++ indent ++ s ++ NL ++ prefix ++ "]")
  | Err e => Err e
  end.

(** A wrapper is its listener section, when it has one. *)
Definition imports : Imports := {|
  BlackHoleCluster := "BlackHoleCluster";
  ListenerType := v3_ListenerType;
  EqualFold := ascii_EqualFold;
  UnmarshalAny := decode_bytes;
  Wrapper := option ListenersConfigDump.t;
  GetListenerConfigDump := fun w =>
    match w with
    | Some d => Ok d
    | None => Err "config dump has no listener section"
    end;
  MarshalIndent := marshal;
  tabwriter_format := fun text => text
|}.

Definition dynamic_entry (bytes : string) : DynamicListener.t :=
  DynamicListener.Build bytes
    (Some (DynamicListenerState.Build "v1" (Some (Any.Build v2_ListenerType bytes))))
    None.

(** A dynamic entry that is only warming: it has no active state. *)
Definition warming_entry (bytes : string) : DynamicListener.t :=
  DynamicListener.Build bytes None
    (Some (DynamicListenerState.Build "v1" (Some (Any.Build v3_ListenerType bytes)))).

Definition static_entry (bytes : string) : StaticListener.t :=
  StaticListener.Build (Some (Any.Build v3_ListenerType bytes)).

Definition primed (d : ListenersConfigDump.t) : @ConfigWriter imports :=
  @Build_ConfigWriter imports (Some (Some d)).

Definition unprimed : @ConfigWriter imports := @Build_ConfigWriter imports None.

(** One dynamic HTTP listener and one static TCP listener. *)
Definition scenario_dump : ListenersConfigDump.t :=
  ListenersConfigDump.Build [static_entry "tcp"] [dynamic_entry "http"].

Definition empty_dump : ListenersConfigDump.t := ListenersConfigDump.Build [] [].

(** Entries without payload only. *)
Definition payloadless_dump : ListenersConfigDump.t :=
  ListenersConfigDump.Build [StaticListener.Build None]
    [warming_entry "http"; DynamicListener.Build "x" (Some (DynamicListenerState.Build "" None)) None].

(** The second dynamic entry does not decode. *)
Definition corrupt_dump : ListenersConfigDump.t :=
  ListenersConfigDump.Build [static_entry "tcp"]
    [dynamic_entry "http"; dynamic_entry "garbage"; dynamic_entry "mixed"].

Definition pipe_dump : ListenersConfigDump.t :=
  ListenersConfigDump.Build [static_entry "pipe"] [dynamic_entry "http"].

End Sample.

(** ** The classifier *)

Section ClassifierFacts.
Context `{Imports}.

(** [strings.Contains] as modelled is the substring relation. *)
Lemma prefix_spec (sub s : string) :
  prefix sub s = true <-> exists post, s = sub ++ post.
Proof.
  revert s. induction sub as [|a sub IH]; intros s.
  - split; [intros _; exists s; reflexivity|intros _; destruct s; reflexivity].
  - destruct s as [|b s]; simpl.
    + split; [discriminate|]. intros [post E]. discriminate.
    + destruct (ascii_dec a b) as [<-|Hab].
      * rewrite IH. split; intros [post E]; exists post.
        -- rewrite E. reflexivity.
        -- injection E as E. exact E.
      * split; [discriminate|]. intros [post E]. injection E as E1 E2.
        symmetry in E1. contradiction.
Qed.

Lemma Contains_spec (s sub : string) :
  Contains s sub = true <-> exists pre post, s = pre ++ sub ++ post.
Proof.
  induction s as [|a s IH]; cbn [Contains].
  - destruct (prefix sub "") eqn:E.
    + split; [|reflexivity]. intros _. apply prefix_spec in E as [post E].
      exists "", post. exact E.
    + split; [discriminate|]. intros (pre & post & Hs).
      destruct pre; [|discriminate].
      assert (prefix sub "" = true) as E' by (apply prefix_spec; exists post; exact Hs).
      rewrite E in E'. discriminate.
  - destruct (prefix sub (String a s)) eqn:E.
    + split; [|reflexivity]. intros _. apply prefix_spec in E as [post E].
      exists "", post. exact E.
    + rewrite IH. split; intros (pre & post & Hs).
      * exists (String a pre), post. rewrite Hs. reflexivity.
      * destruct pre as [|b pre].
        -- assert (prefix sub (String a s) = true) as E'
             by (apply prefix_spec; exists post; exact Hs).
           rewrite E in E'. discriminate.
        -- injection Hs as _ Hs. exists pre, post. exact Hs.
Qed.

Lemma HTTPListener_neq_TCPListener : (HTTPListener =? TCPListener) = false.
Proof. reflexivity. Qed.

(** A filter cannot carry both names. *)
Lemma http_name_not_tcp (f : Filter.t) :
  (Filter.Name f =? HTTPListener) = true -> (Filter.Name f =? TCPListener) = false.
Proof.
  intros E. apply String.eqb_eq in E. rewrite E.
  exact HTTPListener_neq_TCPListener.
Qed.

(** One step of the inner loop adds the filter's contribution to each
    counter. *)
Lemma count_filter_step (n : Z * Z) (f : Filter.t) :
  count_filter n f
  = ((fst n + if is_http_filter f then 1 else 0)%Z,
     (snd n + if is_tcp_filter f then 1 else 0)%Z).
Proof.
  destruct n as [nHTTP nTCP].
  unfold count_filter, is_http_filter, is_tcp_filter, Filter.GetTypedConfig; simpl.
  destruct (Filter.Name f =? HTTPListener) eqn:Eh.
  - rewrite (http_name_not_tcp f Eh). simpl. f_equal; lia.
  - destruct (Filter.Name f =? TCPListener); simpl.
    + destruct (Contains _ _); simpl; f_equal; lia.
    + f_equal; lia.
Qed.

Lemma count_filter_inner (fs : list Filter.t) (n : Z * Z) :
  fold_left count_filter fs n
  = ((fst n + Z.of_nat (length (filter is_http_filter fs)))%Z,
     (snd n + Z.of_nat (length (filter is_tcp_filter fs)))%Z).
Proof.
  revert n. induction fs as [|f fs IH]; intros n.
  - simpl. destruct n; simpl. f_equal; lia.
  - cbn [fold_left]. rewrite IH, count_filter_step. cbn [fst snd filter].
    destruct (is_http_filter f), (is_tcp_filter f); cbn [length]; f_equal; lia.
Qed.

Lemma count_filter_outer (fcs : list FilterChain.t) (n : Z * Z) :
  fold_left (fun n fc => fold_left count_filter (FilterChain.GetFilters fc) n) fcs n
  = ((fst n + Z.of_nat (length (filter is_http_filter (flat_map FilterChain.Filters fcs))))%Z,
     (snd n + Z.of_nat (length (filter is_tcp_filter (flat_map FilterChain.Filters fcs))))%Z).
Proof.
  revert n. induction fcs as [|fc fcs IH]; intros n.
  - simpl. destruct n; simpl. f_equal; lia.
  - cbn [fold_left flat_map]. rewrite IH, count_filter_inner.
    unfold FilterChain.GetFilters. cbn [fst snd].
    rewrite !filter_app, !length_app. f_equal; lia.
Qed.

(** The two nested loops compute the two counts of the specification. *)
Lemma count_filters_spec (l : Listener.t) :
  count_filters l = (http_count l, tcp_count l).
Proof.
  unfold count_filters, http_count, tcp_count, all_filters, Listener.GetFilterChains.
  rewrite count_filter_outer. reflexivity.
Qed.

Lemma http_count_nonneg (l : Listener.t) : (0 <= http_count l)%Z.
Proof. unfold http_count. lia. Qed.

Lemma tcp_count_nonneg (l : Listener.t) : (0 <= tcp_count l)%Z.
Proof. unfold tcp_count. lia. Qed.

Lemma retrieveListenerType_table (l : Listener.t) :
  retrieveListenerType l = decision_table (http_count l) (tcp_count l).
Proof.
  unfold retrieveListenerType, decision_table. rewrite count_filters_spec.
  pose proof (http_count_nonneg l). pose proof (tcp_count_nonneg l).
  destruct (http_count l >? 0)%Z eqn:Eh; destruct (tcp_count l =? 0)%Z eqn:Et;
    destruct (tcp_count l >? 0)%Z eqn:Et'; destruct (http_count l =? 0)%Z eqn:Eh';
    simpl; try reflexivity; lia.
Qed.

(** C1: for every listener the classifier returns the label the decision
    table gives for the number of HTTP connection manager filters and the
    number of TCP proxy filters without the black-hole marker, counted over
    all filters of all filter chains ([http_count] and [tcp_count] count
    nothing else); the label is one of the four, and the function is total
    and has no error result. *)
Theorem retrieveListenerType_decision (l : Listener.t) :
  retrieveListenerType l = decision_table (http_count l) (tcp_count l)
  /\ ((0 < http_count l)%Z /\ tcp_count l = 0%Z /\ retrieveListenerType l = "HTTP"
      \/ (0 < http_count l)%Z /\ (0 < tcp_count l)%Z /\ retrieveListenerType l = "HTTP+TCP"
      \/ http_count l = 0%Z /\ (0 < tcp_count l)%Z /\ retrieveListenerType l = "TCP"
      \/ http_count l = 0%Z /\ tcp_count l = 0%Z /\ retrieveListenerType l = "UNKNOWN").
Proof.
  split; [apply retrieveListenerType_table|].
  rewrite retrieveListenerType_table. unfold decision_table.
  pose proof (http_count_nonneg l). pose proof (tcp_count_nonneg l).
  destruct (http_count l >? 0)%Z eqn:Eh; destruct (tcp_count l =? 0)%Z eqn:Et;
    destruct (tcp_count l >? 0)%Z eqn:Et'; destruct (http_count l =? 0)%Z eqn:Eh';
    simpl; try lia.
  - left. repeat split; lia.
  - right; left. repeat split; lia.
  - right; right; right. repeat split; lia.
  - right; right; left. repeat split; lia.
Qed.

(** A black-hole TCP proxy filter leaves both counters as they are. *)
Lemma count_filter_black_hole (n : Z * Z) (f : Filter.t) :
  is_black_hole_filter f = true -> count_filter n f = n.
Proof.
  unfold is_black_hole_filter. intros E. apply andb_true_iff in E as [En Ec].
  destruct n as [nHTTP nTCP]. unfold count_filter, Filter.GetTypedConfig.
  destruct (Filter.Name f =? HTTPListener) eqn:Eh.
  - rewrite (http_name_not_tcp f Eh) in En. discriminate.
  - rewrite En, Ec. reflexivity.
Qed.

Lemma black_hole_not_counted (f : Filter.t) :
  is_black_hole_filter f = true -> is_http_filter f = false /\ is_tcp_filter f = false.
Proof.
  unfold is_black_hole_filter, is_http_filter, is_tcp_filter.
  intros E. apply andb_true_iff in E as [En Ec]. rewrite En, Ec. split; [|reflexivity].
  destruct (Filter.Name f =? HTTPListener) eqn:Eh; [|reflexivity].
  rewrite (http_name_not_tcp f Eh) in En. discriminate.
Qed.

Lemma filter_drop_black_hole (p : Filter.t -> bool) (fs : list Filter.t) :
  (forall f, is_black_hole_filter f = true -> p f = false) ->
  filter p (filter (fun f => negb (is_black_hole_filter f)) fs) = filter p fs.
Proof.
  intros Hp. induction fs as [|f fs IH]; [reflexivity|].
  cbn [filter]. destruct (is_black_hole_filter f) eqn:E; cbn [negb filter].
  - rewrite (Hp f E). exact IH.
  - rewrite IH. reflexivity.
Qed.

Lemma all_filters_drop_black_hole (l : Listener.t) :
  all_filters (drop_black_hole l)
  = filter (fun f => negb (is_black_hole_filter f)) (all_filters l).
Proof.
  unfold all_filters, drop_black_hole. cbn [Listener.FilterChains].
  induction (Listener.FilterChains l) as [|fc fcs IH]; [reflexivity|].
  cbn [map flat_map FilterChain.Filters]. rewrite IH, filter_app. reflexivity.
Qed.

Lemma count_filters_drop_black_hole (l : Listener.t) :
  count_filters (drop_black_hole l) = count_filters l.
Proof.
  rewrite !count_filters_spec. unfold http_count, tcp_count.
  rewrite all_filters_drop_black_hole.
  rewrite !filter_drop_black_hole; [reflexivity| |];
    intros f E; apply black_hole_not_counted in E; tauto.
Qed.

Lemma tcp_count_zero (l : Listener.t) :
  (forall f, In f (all_filters l) -> Filter.Name f = TCPListener ->
             Contains (Any.GetValue (Filter.TypedConfig f)) BlackHoleCluster = true) ->
  tcp_count l = 0%Z.
Proof.
  intros Hbh. unfold tcp_count.
  replace (filter is_tcp_filter (all_filters l)) with (@nil Filter.t); [reflexivity|].
  symmetry. induction (all_filters l) as [|f fs IH]; [reflexivity|].
  cbn [filter]. destruct (is_tcp_filter f) eqn:E.
  - unfold is_tcp_filter in E. apply andb_true_iff in E as [En Ec].
    apply String.eqb_eq in En. rewrite (Hbh f (or_introl eq_refl) En) in Ec. discriminate.
  - apply IH. intros g Hg. apply Hbh. right. exact Hg.
Qed.

(** C2: in a listener whose TCP proxy filters all contain the black-hole
    marker, however many there are, none of them changes a counter, the TCP
    count is zero, the label is the one of the listener without them, and
    it is "HTTP" or, without an HTTP filter, "UNKNOWN". *)
Theorem black_hole_filters_not_counted (l : Listener.t) :
  (forall f, In f (all_filters l) -> Filter.Name f = TCPListener ->
             Contains (Any.GetValue (Filter.TypedConfig f)) BlackHoleCluster = true) ->
  (forall f n, In f (all_filters l) -> Filter.Name f = TCPListener -> count_filter n f = n)
  /\ snd (count_filters l) = 0%Z
  /\ count_filters (drop_black_hole l) = count_filters l
  /\ retrieveListenerType l
     = (if existsb is_http_filter (all_filters l) then "HTTP" else "UNKNOWN").
Proof.
  intros Hbh. split; [|split; [|split]].
  - intros f n Hin Hn. apply count_filter_black_hole. unfold is_black_hole_filter.
    rewrite (Hbh f Hin Hn), Hn, String.eqb_refl. reflexivity.
  - rewrite count_filters_spec. apply tcp_count_zero, Hbh.
  - apply count_filters_drop_black_hole.
  - rewrite retrieveListenerType_table, (tcp_count_zero l Hbh).
    unfold decision_table, http_count.
    induction (all_filters l) as [|f fs IH]; [reflexivity|].
    cbn [filter existsb]. destruct (is_http_filter f) eqn:E; cbn [orb length].
    + replace (Z.of_nat (S (length (filter is_http_filter fs))) >? 0)%Z with true
        by (symmetry; apply Z.gtb_lt; lia).
      reflexivity.
    + apply IH. intros g Hg. apply Hbh. right. exact Hg.
Qed.

End ClassifierFacts.

(** ** The extraction *)

Section ExtractionFacts.
Context `{Imports}.

Lemma decode_all_ok (ps : list Any.t) (ls : list Listener.t) :
  decode_all ps = Ok ls <-> decoded_in_order ps ls.
Proof.
  unfold decoded_in_order. revert ls. induction ps as [|a ps IH]; intros ls; simpl.
  - split; intros E.
    + injection E as <-. constructor.
    + inversion E. reflexivity.
  - destruct (decode a) as [l|e] eqn:Ea.
    + destruct (decode_all ps) as [ls'|e'] eqn:Eps.
      * split; intros E.
        -- injection E as <-. constructor; [exact Ea|]. apply IH. reflexivity.
        -- inversion E as [|? l0 ? ls0 Ha Hps]; subst.
           rewrite Ea in Ha. injection Ha as <-.
           apply IH in Hps. injection Hps as <-. reflexivity.
      * split; intros E; [discriminate|].
        inversion E as [|? l0 ? ls0 Ha Hps]; subst. apply IH in Hps. discriminate.
    + split; intros E; [discriminate|].
      inversion E as [|? l0 ? ls0 Ha Hps]; subst. rewrite Ea in Ha. discriminate.
Qed.

Lemma decode_all_length (ps : list Any.t) (ls : list Listener.t) :
  decode_all ps = Ok ls -> length ls = length ps.
Proof.
  intros E. apply decode_all_ok in E. symmetry. exact (Forall2_length E).
Qed.

(** A failure is the decoder's error at the first payload that fails. *)
Lemma decode_all_first_failure (pre post : list Any.t) (a : Any.t)
  (ls : list Listener.t) (e : error) :
  decoded_in_order pre ls -> decode a = Err e ->
  decode_all (pre ++ a :: post) = Err e
  /\ attempted (pre ++ a :: post) = (pre ++ [a])%list.
Proof.
  unfold decoded_in_order. intros Hpre Ha.
  induction Hpre as [|b l pre' ls' Hb Hpre IH]; simpl.
  - rewrite Ha. split; reflexivity.
  - rewrite Hb. destruct IH as [-> ->]. split; reflexivity.
Qed.

Lemma decode_all_err (ps : list Any.t) (e : error) :
  decode_all ps = Err e ->
  exists pre a post ls,
    ps = (pre ++ a :: post)%list /\ decoded_in_order pre ls /\ decode a = Err e.
Proof.
  induction ps as [|b ps IH]; simpl; [discriminate|].
  destruct (decode b) as [l|e'] eqn:Eb.
  - destruct (decode_all ps) as [ls'|e''] eqn:Eps; [discriminate|].
    intros E. injection E as ->.
    destruct (IH eq_refl) as (pre & a & post & ls & -> & Hpre & Ha).
    exists (b :: pre), a, post, (l :: ls). repeat split; [|exact Ha].
    constructor; assumption.
  - intros E. injection E as ->.
    exists [], b, ps, []. repeat split; [constructor|exact Eb].
Qed.

Lemma attempted_all (ps : list Any.t) (ls : list Listener.t) :
  decode_all ps = Ok ls -> attempted ps = ps.
Proof.
  revert ls. induction ps as [|a ps IH]; intros ls; simpl; [reflexivity|].
  destruct (decode a); [|discriminate].
  destruct (decode_all ps) eqn:E; [|discriminate].
  intros _. f_equal. eapply IH. reflexivity.
Qed.

Lemma decode_all_app (ps qs : list Any.t) :
  decode_all (ps ++ qs)
  = match decode_all ps with
    | Err e => Err e
    | Ok ls =>
        match decode_all qs with
        | Err e => Err e
        | Ok ls' => Ok (ls ++ ls')%list
        end
    end.
Proof.
  induction ps as [|a ps IH]; simpl.
  - destruct (decode_all qs); reflexivity.
  - destruct (decode a); [|reflexivity]. rewrite IH.
    destruct (decode_all ps); [|reflexivity].
    destruct (decode_all qs); reflexivity.
Qed.

Lemma attempted_app (ps qs : list Any.t) :
  attempted (ps ++ qs)
  = match decode_all ps with
    | Err _ => attempted ps
    | Ok _ => (attempted ps ++ attempted qs)%list
    end.
Proof.
  induction ps as [|a ps IH]; simpl; [reflexivity|].
  destruct (decode a); [|reflexivity]. rewrite IH.
  destruct (decode_all ps); reflexivity.
Qed.

(** What a loop over entries does, by the payloads the entries carry. *)
Definition loop_result (ps : list Any.t) (listeners : list Listener.t)
  : M (result (list Listener.t)) :=
  (map EvUnmarshal (map normalise (attempted ps)),
   Returns match decode_all ps with
           | Ok ls => Ok (listeners ++ ls)%list
           | Err e => Err ("unmarshal listener: " ++ e)
           end).

Lemma loop_result_cons (a : Any.t) (ps : list Any.t) (listeners : list Listener.t) :
  (r <- call_UnmarshalAny (setTypeUrl a ListenerType) ;;
   match r with
   | Err err => ret (Err ("unmarshal listener: " ++ err))
   | Ok listenerTyped => loop_result ps (listeners ++ [listenerTyped])
   end)%go
  = loop_result (a :: ps) listeners.
Proof.
  unfold loop_result, call_UnmarshalAny, bind, tell, ret. simpl.
  fold (decode a). destruct (decode a) as [l|e]; simpl; [|reflexivity].
  destruct (decode_all ps); [|reflexivity].
  rewrite <- app_assoc. reflexivity.
Qed.

Lemma dynamic_loop_spec (entries : list DynamicListener.t) (listeners : list Listener.t) :
  dynamic_loop entries listeners
  = loop_result (flat_map (fun l => present (active_payload l)) entries) listeners.
Proof.
  revert listeners. induction entries as [|l rest IH]; intros listeners.
  - unfold loop_result. simpl. rewrite app_nil_r. reflexivity.
  - cbn [dynamic_loop flat_map]. unfold active_payload at 1.
    destruct (DynamicListener.ActiveState l) as [st|]; [|apply IH].
    destruct (DynamicListenerState.Listener st) as [a|]; [|apply IH].
    cbn [present app]. rewrite <- loop_result_cons.
    unfold bind. destruct (call_UnmarshalAny _) as [t [[l'|e]|msg]]; try reflexivity.
    rewrite IH. reflexivity.
Qed.

Lemma static_loop_spec (entries : list StaticListener.t) (listeners : list Listener.t) :
  static_loop entries listeners
  = loop_result (flat_map (fun l => present (StaticListener.Listener l)) entries) listeners.
Proof.
  revert listeners. induction entries as [|l rest IH]; intros listeners.
  - unfold loop_result. simpl. rewrite app_nil_r. reflexivity.
  - cbn [static_loop flat_map].
    destruct (StaticListener.Listener l) as [a|]; [|apply IH].
    cbn [present app]. rewrite <- loop_result_cons.
    unfold bind. destruct (call_UnmarshalAny _) as [t [[l'|e]|msg]]; try reflexivity.
    rewrite IH. reflexivity.
Qed.

(** The extraction from a primed writer whose dump has a listener section:
    the payloads handed to the decoder, and the result. *)
Definition extraction_of (d : ListenersConfigDump.t) : M (result (list Listener.t)) :=
  (map EvUnmarshal (map normalise (attempted (payloads d))),
   Returns match decode_all (payloads d) with
           | Err e => Err ("unmarshal listener: " ++ e)
           | Ok [] => Err "no listeners found"
           | Ok ls => Ok ls
           end).

Lemma retrieve_primed (c : ConfigWriter) (w : Wrapper) (d : ListenersConfigDump.t) :
  configDump c = Some w -> GetListenerConfigDump w = Ok d ->
  retrieveSortedListenerSlice c = extraction_of d.
Proof.
  intros Hc Hw. unfold retrieveSortedListenerSlice, extraction_of, payloads.
  rewrite Hc, Hw, dynamic_loop_spec. fold (dynamic_payloads d).
  rewrite decode_all_app, attempted_app. unfold loop_result at 1, bind.
  destruct (decode_all (dynamic_payloads d)) as [ds|e]; cbn [app].
  - rewrite static_loop_spec. fold (static_payloads d). unfold loop_result.
    destruct (decode_all (static_payloads d)) as [ss|e]; cbn [ret app].
    + rewrite !map_app. destruct (ds ++ ss)%list; cbn [length Nat.eqb ret];
        rewrite app_nil_r; reflexivity.
    + rewrite !map_app, !app_nil_r. reflexivity.
  - cbn [ret]. rewrite app_nil_r. reflexivity.
Qed.

End ExtractionFacts.

Section ExtractionClaims.
Context `{Imports}.

Lemma retrieve_unprimed (c : ConfigWriter) :
  configDump c = None ->
  retrieveSortedListenerSlice c = ([], Returns (Err "config writer has not been primed")).
Proof. intros Hc. unfold retrieveSortedListenerSlice. rewrite Hc. reflexivity. Qed.

Lemma retrieve_no_section (c : ConfigWriter) (w : Wrapper) (e : error) :
  configDump c = Some w -> GetListenerConfigDump w = Err e ->
  retrieveSortedListenerSlice c = ([], Returns (Err ("listener dump: " ++ e))).
Proof.
  intros Hc Hw. unfold retrieveSortedListenerSlice. rewrite Hc, Hw. reflexivity.
Qed.

(** The extraction always returns: it has no panic. *)
Lemma retrieve_returns (c : ConfigWriter) :
  exists r, ending (retrieveSortedListenerSlice c) = Returns r.
Proof.
  destruct (configDump c) as [w|] eqn:Hc.
  - destruct (GetListenerConfigDump w) as [d|e] eqn:Hw.
    + rewrite (retrieve_primed c w d Hc Hw). eexists. reflexivity.
    + rewrite (retrieve_no_section c w e Hc Hw). eexists. reflexivity.
  - rewrite (retrieve_unprimed c Hc). eexists. reflexivity.
Qed.

(** C3: the extraction returns the "not primed" error exactly when the
    config dump is nil; it returns the "no listeners found" error exactly
    when the dump is present, has a listener section and the decoded
    collection of its payloads is empty; a collection it returns is not
    empty. *)
Theorem extraction_error_conditions (c : ConfigWriter) :
  (ending (retrieveSortedListenerSlice c) = Returns (Err "config writer has not been primed")
   <-> configDump c = None)
  /\ (ending (retrieveSortedListenerSlice c) = Returns (Err "no listeners found")
      <-> exists w d, configDump c = Some w /\ GetListenerConfigDump w = Ok d
                      /\ decoded_in_order (payloads d) [])
  /\ (forall ls, ending (retrieveSortedListenerSlice c) = Returns (Ok ls) -> ls <> []).
Proof.
  destruct (configDump c) as [w|] eqn:Hc.
  - destruct (GetListenerConfigDump w) as [d|e] eqn:Hw.
    + rewrite (retrieve_primed c w d Hc Hw). unfold extraction_of, ending. cbn [snd].
      destruct (decode_all (payloads d)) as [[|l ls']|e] eqn:Ed.
      * split; [|split].
        -- split; intros E; discriminate.
        -- split; [|reflexivity]. intros _. exists w, d.
           repeat split; [exact Hw|]. apply decode_all_ok. exact Ed.
        -- intros ls E. discriminate.
      * split; [|split].
        -- split; intros E; discriminate.
        -- split; [intros E; discriminate|].
           intros (w' & d' & Hw' & Hd' & Hdec).
           injection Hw' as <-. rewrite Hw in Hd'. injection Hd' as <-.
           apply decode_all_ok in Hdec. rewrite Ed in Hdec. discriminate.
        -- intros ls E. injection E as <-. discriminate.
      * split; [|split].
        -- split; intros E; discriminate.
        -- split; [intros E; discriminate|].
           intros (w' & d' & Hw' & Hd' & Hdec).
           injection Hw' as <-. rewrite Hw in Hd'. injection Hd' as <-.
           apply decode_all_ok in Hdec. rewrite Ed in Hdec. discriminate.
        -- intros ls E. discriminate.
    + rewrite (retrieve_no_section c w e Hc Hw). unfold ending. cbn [snd].
      split; [|split].
      * split; intros E; discriminate.
      * split; [intros E; discriminate|].
        intros (w' & d' & Hw' & Hd' & _).
        injection Hw' as <-. rewrite Hw in Hd'. discriminate.
      * intros ls E. discriminate.
  - rewrite (retrieve_unprimed c Hc). unfold ending. cbn [snd].
    split; [|split].
    + split; reflexivity.
    + split; [intros E; discriminate|].
      intros (w' & d' & Hw' & _). discriminate.
    + intros ls E. discriminate.
Qed.

(** C4: a collection the extraction returns is the decoding of the dynamic
    payloads, in the order of the dynamic section, followed by the decoding
    of the static payloads, in the order of the static section; nothing is
    sorted. *)
Theorem extraction_order (c : ConfigWriter) (ls : list Listener.t) :
  ending (retrieveSortedListenerSlice c) = Returns (Ok ls) ->
  exists w d ds ss,
    configDump c = Some w /\ GetListenerConfigDump w = Ok d
    /\ decoded_in_order (dynamic_payloads d) ds
    /\ decoded_in_order (static_payloads d) ss
    /\ ls = (ds ++ ss)%list.
Proof.
  destruct (configDump c) as [w|] eqn:Hc.
  - destruct (GetListenerConfigDump w) as [d|e] eqn:Hw.
    + rewrite (retrieve_primed c w d Hc Hw). unfold extraction_of, ending, payloads.
      cbn [snd]. rewrite decode_all_app.
      destruct (decode_all (dynamic_payloads d)) as [ds|e] eqn:Ed; [|discriminate].
      destruct (decode_all (static_payloads d)) as [ss|e] eqn:Es; [|discriminate].
      intros E. exists w, d, ds, ss.
      split; [reflexivity|]. split; [exact Hw|].
      split; [apply decode_all_ok; exact Ed|].
      split; [apply decode_all_ok; exact Es|].
      destruct (ds ++ ss)%list; [discriminate|]. injection E as <-. reflexivity.
    + rewrite (retrieve_no_section c w e Hc Hw). discriminate.
  - rewrite (retrieve_unprimed c Hc). discriminate.
Qed.

(** The extraction at a payload that fails to decode after payloads that
    all decode. *)
Lemma decode_failure_at (c : ConfigWriter) (w : Wrapper)
  (d : ListenersConfigDump.t) (pre post : list Any.t) (a : Any.t)
  (ls : list Listener.t) (e : error) :
  configDump c = Some w -> GetListenerConfigDump w = Ok d ->
  payloads d = (pre ++ a :: post)%list ->
  decoded_in_order pre ls -> decode a = Err e ->
  retrieveSortedListenerSlice c
  = (map EvUnmarshal (map normalise (pre ++ [a])),
     Returns (Err ("unmarshal listener: " ++ e))).
Proof.
  intros Hc Hw Hp Hpre Ha. rewrite (retrieve_primed c w d Hc Hw).
  unfold extraction_of. rewrite Hp.
  destruct (decode_all_first_failure pre post a ls e Hpre Ha) as [-> ->].
  reflexivity.
Qed.

(** Among payloads of which one fails to decode there is a first one that
    fails. *)
Lemma first_failure_exists (ps : list Any.t) (a : Any.t) (e : error) :
  In a ps -> decode a = Err e ->
  exists pre a1 post ls e1,
    ps = (pre ++ a1 :: post)%list /\ decoded_in_order pre ls /\ decode a1 = Err e1.
Proof.
  intros Hin Ha. induction ps as [|b ps IH]; [contradiction|].
  destruct (decode b) as [l|e'] eqn:Eb.
  - destruct Hin as [->|Hin]; [rewrite Ha in Eb; discriminate|].
    destruct (IH Hin) as (pre & a1 & post & ls & e1 & -> & Hpre & Ha1).
    exists (b :: pre), a1, post, (l :: ls), e1.
    repeat split; [|exact Ha1]. constructor; assumption.
  - exists [], b, ps, [], e'. repeat split; [constructor|exact Eb].
Qed.

(** C5: when some payload of the dump fails to decode, the extraction
    returns the decoder's error at the first payload that fails, wrapped,
    and no collection; the decoder has been called on the payloads up to
    that one, none skipped, and on no later one. *)
Theorem decode_failure_is_fatal (c : ConfigWriter) (w : Wrapper)
  (d : ListenersConfigDump.t) (a : Any.t) (e : error) :
  configDump c = Some w -> GetListenerConfigDump w = Ok d ->
  In a (payloads d) -> decode a = Err e ->
  exists pre a1 post ls e1,
    payloads d = (pre ++ a1 :: post)%list
    /\ decoded_in_order pre ls /\ decode a1 = Err e1
    /\ retrieveSortedListenerSlice c
       = (map EvUnmarshal (map normalise (pre ++ [a1])),
          Returns (Err ("unmarshal listener: " ++ e1))).
Proof.
  intros Hc Hw Hin Ha.
  destruct (first_failure_exists (payloads d) a e Hin Ha)
    as (pre & a1 & post & ls & e1 & Hp & Hpre & Ha1).
  exists pre, a1, post, ls, e1. repeat split; try assumption.
  exact (decode_failure_at c w d pre post a1 ls e1 Hc Hw Hp Hpre Ha1).
Qed.

Lemma payloads_drop_payloadless (d : ListenersConfigDump.t) :
  payloads (drop_payloadless d) = payloads d.
Proof.
  unfold payloads, dynamic_payloads, static_payloads, drop_payloadless.
  cbn [ListenersConfigDump.DynamicListeners ListenersConfigDump.StaticListeners].
  f_equal.
  - induction (ListenersConfigDump.DynamicListeners d) as [|l ls IH]; [reflexivity|].
    cbn [filter flat_map]. destruct (active_payload l) eqn:E; cbn [flat_map present app].
    + rewrite E, IH. reflexivity.
    + exact IH.
  - induction (ListenersConfigDump.StaticListeners d) as [|l ls IH]; [reflexivity|].
    cbn [filter flat_map]. destruct (StaticListener.Listener l) eqn:E;
      cbn [flat_map present app].
    + rewrite E, IH. reflexivity.
    + exact IH.
Qed.

Lemma payloadless_no_payloads (d : ListenersConfigDump.t) :
  payloadless d -> payloads d = [].
Proof.
  intros [Hd Hs]. unfold payloads, dynamic_payloads, static_payloads.
  replace (flat_map _ (ListenersConfigDump.DynamicListeners d)) with (@nil Any.t).
  - induction Hs as [|l ls Hl _ IH]; [reflexivity|].
    cbn [flat_map app]. rewrite Hl. exact IH.
  - symmetry. induction Hd as [|l ls Hl _ IH]; [reflexivity|].
    cbn [flat_map]. rewrite Hl. exact IH.
Qed.

(** C10: entries without payload are skipped: the extraction from a dump is
    the extraction from the dump without them, records, error and decoder
    calls alike, and from a dump that has only such entries it returns the
    "no listeners found" error without a call of the decoder. *)
Theorem payloadless_entries_skipped (c : ConfigWriter) (w : Wrapper)
  (d : ListenersConfigDump.t) :
  configDump c = Some w -> GetListenerConfigDump w = Ok d ->
  (forall c' w', configDump c' = Some w' ->
                 GetListenerConfigDump w' = Ok (drop_payloadless d) ->
                 retrieveSortedListenerSlice c' = retrieveSortedListenerSlice c)
  /\ (payloadless d ->
      retrieveSortedListenerSlice c = ([], Returns (Err "no listeners found"))).
Proof.
  intros Hc Hw. rewrite (retrieve_primed c w d Hc Hw). split.
  - intros c' w' Hc' Hw'. rewrite (retrieve_primed c' w' _ Hc' Hw').
    unfold extraction_of. rewrite payloads_drop_payloadless. reflexivity.
  - intros Hd. unfold extraction_of. rewrite (payloadless_no_payloads d Hd). reflexivity.
Qed.

End ExtractionClaims.

(** ** The filter *)

Section FilterFacts.
Context `{Imports}.

(** On a listener bound to a socket address, [Verify] returns the
    conjunction of the three checks, and classifies the listener only when
    it reaches the type check. *)
Lemma Verify_socket (f : ListenerFilter.t) (l : Listener.t) (sa : SocketAddress.t) :
  socket_address l = Some sa ->
  Verify f l
  = ((if classifies f sa then [EvClassify l] else []), Returns (matches f l sa)).
Proof.
  unfold socket_address. intros Hsa.
  unfold Verify, classifies, matches, address_check, port_check, type_check,
    retrieveListenerAddress, retrieveListenerPort, call_retrieveListenerType.
  rewrite Hsa.
  cbv [bind ret tell].
  destruct (ListenerFilter.Address f =? "");
    destruct (ListenerFilter.Port f =? 0)%N;
    destruct (ListenerFilter.Type' f =? "");
    destruct (EqualFold (SocketAddress.Address sa) (ListenerFilter.Address f));
    destruct (SocketAddress.GetPortValue (Some sa) =? ListenerFilter.Port f)%N;
    destruct (EqualFold (retrieveListenerType l) (ListenerFilter.Type' f));
    reflexivity.
Qed.

(** On a listener that is not bound to a socket address, an address check
    dereferences a nil pointer. *)
Lemma Verify_no_socket (f : ListenerFilter.t) (l : Listener.t) :
  socket_address l = None -> ListenerFilter.Address f <> "" ->
  Verify f l = ([], Panics nil_dereference).
Proof.
  unfold socket_address. intros Hsa Hf. apply String.eqb_neq in Hf.
  unfold Verify, retrieveListenerAddress. rewrite Hsa, Hf. reflexivity.
Qed.

(** C7: the filter with all three fields unset matches every listener, and
    [Verify] returns without a call of the classifier; the loop that
    filters a collection with it keeps the whole collection, in order. *)
Theorem empty_filter_matches_all (l : Listener.t) (ls : list Listener.t) :
  Verify empty_filter l = ([], Returns true)
  /\ classified (trace (Verify empty_filter l)) = []
  /\ dump_loop empty_filter ls [] = ([], Returns ls).
Proof.
  split; [reflexivity|]. split; [reflexivity|].
  change ls with ([] ++ ls)%list at 2. generalize (@nil Listener.t) as acc.
  induction ls as [|x xs IH]; intros acc.
  - cbn [dump_loop]. rewrite app_nil_r. reflexivity.
  - cbn [dump_loop]. change (Verify empty_filter x) with (@ret bool true).
    unfold bind, ret. rewrite IH, <- app_assoc. reflexivity.
Qed.

End FilterFacts.

(** ** The printers *)

Section PrinterFacts.
Context `{Imports}.

Lemma append_assoc (a b c : string) : (a ++ b) ++ c = a ++ (b ++ c).
Proof. induction a as [|x a IH]; simpl; [reflexivity|]. rewrite IH. reflexivity. Qed.

Lemma append_nil_r (a : string) : a ++ "" = a.
Proof. induction a as [|x a IH]; simpl; [reflexivity|]. rewrite IH. reflexivity. Qed.

Lemma stdout_of_app (t1 t2 : list event) :
  stdout_of (t1 ++ t2) = stdout_of t1 ++ stdout_of t2.
Proof.
  induction t1 as [|e t1 IH]; [reflexivity|].
  destruct e; cbn [app stdout_of]; rewrite IH; [reflexivity..|].
  symmetry. apply append_assoc.
Qed.

Lemma stdout_of_unmarshal (ps : list Any.t) : stdout_of (map EvUnmarshal ps) = "".
Proof. induction ps as [|a ps IH]; [reflexivity|exact IH]. Qed.

(** The extraction writes nothing. *)
Lemma retrieve_silent (c : ConfigWriter) :
  stdout_of (trace (retrieveSortedListenerSlice c)) = "".
Proof.
  destruct (configDump c) as [w|] eqn:Hc.
  - destruct (GetListenerConfigDump w) as [d|e] eqn:Hw.
    + rewrite (retrieve_primed c w d Hc Hw). apply stdout_of_unmarshal.
    + rewrite (retrieve_no_section c w e Hc Hw). reflexivity.
  - rewrite (retrieve_unprimed c Hc). reflexivity.
Qed.

Lemma passing_cons (f : ListenerFilter.t) (l : Listener.t) (ls : list Listener.t)
  (sa : SocketAddress.t) :
  socket_address l = Some sa ->
  passing f (l :: ls) = if matches f l sa then l :: passing f ls else passing f ls.
Proof. intros Hsa. unfold passing. cbn [filter]. rewrite Hsa. reflexivity. Qed.

Lemma has_socket_address_inv (l : Listener.t) :
  has_socket_address l = true -> exists sa, socket_address l = Some sa.
Proof.
  unfold has_socket_address. destruct (socket_address l) as [sa|]; [|discriminate].
  intros _. exists sa. reflexivity.
Qed.


(** The loop of the dump on listeners bound to socket addresses. *)
Lemma dump_loop_socket (f : ListenerFilter.t) (ls acc : list Listener.t) :
  Forall (fun l => has_socket_address l = true) ls ->
  exists t, dump_loop f ls acc = (t, Returns (acc ++ passing f ls)%list)
            /\ stdout_of t = "".
Proof.
  intros Hls. revert acc. induction Hls as [|l ls Hl _ IH]; intros acc.
  - exists []. cbn. rewrite app_nil_r. split; reflexivity.
  - destruct (has_socket_address_inv l Hl) as [sa Hsa].
    cbn [dump_loop]. rewrite (Verify_socket f l sa Hsa), (passing_cons f l ls sa Hsa).
    destruct (matches f l sa).
    + destruct (IH (acc ++ [l])%list) as (t & Ht & Hout). cbv [bind ret]. rewrite Ht.
      eexists. split; [rewrite <- app_assoc; reflexivity|].
      rewrite stdout_of_app, Hout. destruct (classifies f sa); reflexivity.
    + destruct (IH acc) as (t & Ht & Hout). cbv [bind ret]. rewrite Ht.
      eexists. split; [reflexivity|].
      rewrite stdout_of_app, Hout. destruct (classifies f sa); reflexivity.
Qed.

Lemma retrieve_eta (c : ConfigWriter) (r : result (list Listener.t)) :
  ending (retrieveSortedListenerSlice c) = Returns r ->
  exists t, retrieveSortedListenerSlice c = (t, Returns r) /\ stdout_of t = "".
Proof.
  pose proof (retrieve_silent c) as Hs. revert Hs. unfold ending, trace.
  destruct (retrieveSortedListenerSlice c) as [t o]. cbn.
  intros Hs ->. exists t. split; [reflexivity|exact Hs].
Qed.

(** When the extraction fails, both printers return its error and write
    nothing. *)
Lemma printers_propagate_extraction_error (c : ConfigWriter)
  (f : ListenerFilter.t) (e : error) :
  ending (retrieveSortedListenerSlice c) = Returns (Err e) ->
  (ending (PrintListenerSummary c f) = Returns (Some e)
   /\ stdout_of (trace (PrintListenerSummary c f)) = "")
  /\ (ending (PrintListenerDump c f) = Returns (Some e)
      /\ stdout_of (trace (PrintListenerDump c f)) = "").
Proof.
  intros E. apply retrieve_eta in E as (t0 & E & Hs).
  unfold PrintListenerSummary, PrintListenerDump, setupListenerConfigWriter.
  rewrite E. cbv [bind ret ending trace fst snd]. rewrite !app_nil_r.
  repeat split; try reflexivity; exact Hs.
Qed.


(** On a collection of listeners bound to socket addresses, the dump
    either writes the serialisation of the passing listeners and a newline
    and returns nil, or returns the wrapped serialisation error and writes
    nothing. *)
Lemma PrintListenerDump_socket (c : ConfigWriter) (f : ListenerFilter.t)
  (ls : list Listener.t) :
  ending (retrieveSortedListenerSlice c) = Returns (Ok ls) ->
  Forall (fun l => has_socket_address l = true) ls ->
  match MarshalIndent (passing f ls) "" "    " with
  | Ok out =>
      ending (PrintListenerDump c f) = Returns None
      /\ stdout_of (trace (PrintListenerDump c f)) = out ++ NL
  | Err e =>
      ending (PrintListenerDump c f) = Returns (Some ("failed to marshal listeners: " ++ e))
      /\ stdout_of (trace (PrintListenerDump c f)) = ""
  end.
Proof.
  intros E Hls. apply retrieve_eta in E as (t0 & E & Hs).
  destruct (dump_loop_socket f ls [] Hls) as (t & Ht & Hout). cbn [app] in Ht.
  unfold PrintListenerDump, setupListenerConfigWriter.
  rewrite E. cbv [bind ret tell]. rewrite Ht.
  destruct (MarshalIndent (passing f ls) "" "    ") as [out|e];
    cbv [ending trace fst snd]; (split; [reflexivity|]);
    rewrite !stdout_of_app, Hs, Hout; cbn [app stdout_of append].
  - rewrite !append_nil_r. reflexivity.
  - reflexivity.
Qed.

End PrinterFacts.

(** ** The claims on the sample inputs *)

Import Sample.

(** The scenarios of the specification. *)
Example classify_scenarios :
  @retrieveListenerType imports http_listener = "HTTP"
  /\ @retrieveListenerType imports tcp_listener = "TCP"
  /\ @retrieveListenerType imports mixed_listener = "HTTP+TCP"
  /\ @retrieveListenerType imports black_hole_listener = "UNKNOWN".
Proof. repeat split; reflexivity. Qed.

Example summary_scenario :
  stdout_of (trace (@PrintListenerSummary imports (primed scenario_dump) empty_filter))
  = "ADDRESS" ++ TAB ++ "PORT" ++ TAB ++ "TYPE" ++ NL
    ++ "10.0.0.1" ++ TAB ++ "8080" ++ TAB ++ "HTTP" ++ NL
    ++ "10.0.0.2" ++ TAB ++ "9000" ++ TAB ++ "TCP" ++ NL.
Proof. reflexivity. Qed.

Example summary_scenario_type_tcp :
  stdout_of (trace (@PrintListenerSummary imports (primed scenario_dump)
                      (ListenerFilter.Build "" 0 "tcp")))
  = "ADDRESS" ++ TAB ++ "PORT" ++ TAB ++ "TYPE" ++ NL
    ++ "10.0.0.2" ++ TAB ++ "9000" ++ TAB ++ "TCP" ++ NL.
Proof. reflexivity. Qed.

Example summary_scenario_port_8080 :
  stdout_of (trace (@PrintListenerSummary imports (primed scenario_dump)
                      (ListenerFilter.Build "" 8080 "")))
  = "ADDRESS" ++ TAB ++ "PORT" ++ TAB ++ "TYPE" ++ NL
    ++ "10.0.0.1" ++ TAB ++ "8080" ++ TAB ++ "HTTP" ++ NL.
Proof. reflexivity. Qed.

(** The extraction keeps the encounter order also where a sort by name,
    address or port would change it. *)
Example extraction_is_not_sorted :
  ending (@retrieveSortedListenerSlice imports
            (primed (ListenersConfigDump.Build [static_entry "http"] [dynamic_entry "tcp"])))
  = Returns (Ok [tcp_listener; http_listener]).
Proof. reflexivity. Qed.

Example extraction_unprimed_and_empty :
  ending (@retrieveSortedListenerSlice imports unprimed)
  = Returns (Err "config writer has not been primed")
  /\ ending (@retrieveSortedListenerSlice imports (primed empty_dump))
     = Returns (Err "no listeners found").
Proof. split; reflexivity. Qed.

(** The black-hole listener has three filters, two of them black-hole TCP
    proxies, and no TCP count. *)
Lemma black_hole_filters_not_counted_witness :
  snd (@count_filters imports black_hole_listener) = 0%Z
  /\ @retrieveListenerType imports black_hole_listener = "UNKNOWN".
Proof.
  destruct (@black_hole_filters_not_counted imports black_hole_listener)
    as (_ & Hcount & _ & Htype).
  - intros f Hin Hname. simpl in Hin.
    destruct Hin as [<-|[<-|[<-|[]]]]; try reflexivity. discriminate Hname.
  - split; [exact Hcount|exact Htype].
Defined.

Lemma extraction_order_witness :
  exists w d ds ss,
    @configDump imports (primed scenario_dump) = Some w
    /\ @GetListenerConfigDump imports w = Ok d
    /\ @decoded_in_order imports (dynamic_payloads d) ds
    /\ @decoded_in_order imports (static_payloads d) ss
    /\ [http_listener; tcp_listener] = (ds ++ ss)%list.
Proof.
  apply (@extraction_order imports (primed scenario_dump) [http_listener; tcp_listener]).
  reflexivity.
Defined.

Lemma decode_failure_is_fatal_witness :
  exists pre a1 post ls e1,
    payloads corrupt_dump = (pre ++ a1 :: post)%list
    /\ @decoded_in_order imports pre ls /\ @decode imports a1 = Err e1
    /\ @retrieveSortedListenerSlice imports (primed corrupt_dump)
       = (map EvUnmarshal (map (@normalise imports) (pre ++ [a1])),
          Returns (Err ("unmarshal listener: " ++ e1))).
Proof.
  apply (@decode_failure_is_fatal imports (primed corrupt_dump) (Some corrupt_dump)
           corrupt_dump (Any.Build v2_ListenerType "garbage")
           "proto: cannot parse invalid wire-format data").
  - reflexivity.
  - reflexivity.
  - right. left. reflexivity.
  - reflexivity.
Defined.

Example decode_failure_trace :
  @retrieveSortedListenerSlice imports (primed corrupt_dump)
  = ([EvUnmarshal (Any.Build v3_ListenerType "http");
      EvUnmarshal (Any.Build v3_ListenerType "garbage")],
     Returns (Err "unmarshal listener: proto: cannot parse invalid wire-format data")).
Proof. reflexivity. Qed.

Lemma payloadless_entries_skipped_witness :
  @retrieveSortedListenerSlice imports (primed payloadless_dump)
  = ([], Returns (Err "no listeners found")).
Proof.
  apply (@payloadless_entries_skipped imports (primed payloadless_dump)
           (Some payloadless_dump) payloadless_dump eq_refl eq_refl).
  split; repeat constructor.
Defined.

(** C6: on a listener bound to a pipe, [Verify] with an address to match
    does not return a verdict: [retrieveListenerAddress] reads the address
    field of a nil socket address, where [retrieveListenerPort] goes through
    the nil-safe getter. On a listener bound to a socket address the same
    filter is decided ([Verify_socket]). *)
Theorem Verify_address_check_nil_dereference :
  @Verify imports (ListenerFilter.Build "10.0.0.1" 0 "") pipe_listener
  = ([], Panics nil_dereference)
  /\ @Verify imports (ListenerFilter.Build "10.0.0.1" 0 "") http_listener
     = ([], Returns true).
Proof. split; reflexivity. Qed.

(** C8: for a collection that holds a listener bound to a pipe, the summary
    with the empty filter writes no header and no row: the row's address is
    read through a nil socket address. On collections of listeners bound to
    socket addresses the summary is as claimed
    ([PrintListenerSummary_socket]). *)
Theorem PrintListenerSummary_nil_dereference :
  ending (@retrieveSortedListenerSlice imports (primed pipe_dump))
  = Returns (Ok [http_listener; pipe_listener])
  /\ ending (@PrintListenerSummary imports (primed pipe_dump) empty_filter)
     = Panics nil_dereference
  /\ stdout_of (trace (@PrintListenerSummary imports (primed pipe_dump) empty_filter)) = "".
Proof. repeat split; reflexivity. Qed.

(** C9: for a collection that holds a listener bound to a pipe, the dump
    with an address to match neither writes the serialised block nor returns
    an error: [Verify] reads the address through a nil socket address. On
    collections of listeners bound to socket addresses the dump is as
    claimed ([PrintListenerDump_socket]). *)
Theorem PrintListenerDump_nil_dereference :
  ending (@retrieveSortedListenerSlice imports (primed pipe_dump))
  = Returns (Ok [http_listener; pipe_listener])
  /\ ending (@PrintListenerDump imports (primed pipe_dump)
               (ListenerFilter.Build "10.0.0.1" 0 ""))
     = Panics nil_dereference
  /\ stdout_of (trace (@PrintListenerDump imports (primed pipe_dump)
                         (ListenerFilter.Build "10.0.0.1" 0 ""))) = "".
Proof. repeat split; reflexivity. Qed.

(** ** More on the filter *)

Section VerifyOutcome.
Context `{Imports}.

(** [Verify] on any filter and listener: a nil dereference when there is an
    address to match and no socket address, its verdict otherwise. *)
Lemma Verify_outcome (f : ListenerFilter.t) (l : Listener.t) :
  Verify f l
  = if reads_nil_address f l then ([], Panics nil_dereference)
    else ((if reaches_type_check f l then [EvClassify l] else []),
          Returns (verdict f l)).
Proof.
  unfold reads_nil_address, reaches_type_check, verdict, has_socket_address.
  destruct (socket_address l) as [sa|] eqn:Hsa.
  - rewrite andb_false_r. apply Verify_socket. exact Hsa.
  - destruct (ListenerFilter.Address f =? "") eqn:Ha; cbn [negb andb].
    + unfold socket_address in Hsa.
      unfold Verify, type_check, retrieveListenerPort, call_retrieveListenerType.
      rewrite Hsa, Ha. cbn [SocketAddress.GetPortValue]. cbv [bind ret tell].
      rewrite (N.eqb_sym 0 (ListenerFilter.Port f)).
      destruct (ListenerFilter.Port f =? 0)%N;
        destruct (ListenerFilter.Type' f =? "");
        destruct (EqualFold (retrieveListenerType l) (ListenerFilter.Type' f));
        reflexivity.
    + apply Verify_no_socket; [exact Hsa|]. apply String.eqb_neq. exact Ha.
Qed.

Lemma reads_nil_address_true (f : ListenerFilter.t) (l : Listener.t) :
  reads_nil_address f l = true
  <-> ListenerFilter.Address f <> "" /\ socket_address l = None.
Proof.
  unfold reads_nil_address, has_socket_address.
  rewrite andb_true_iff, !negb_true_iff, String.eqb_neq.
  destruct (socket_address l); split; intros [Ha Hs]; (split; [exact Ha|]);
    try reflexivity; discriminate.
Qed.

(** X1: on a listener bound to a socket address, [Verify] returns, and it
    returns true exactly when the address check, the port check and the type
    check all pass, an unset field passing its check. *)
Theorem Verify_decides_socket_listener (f : ListenerFilter.t) (l : Listener.t)
  (sa : SocketAddress.t) :
  socket_address l = Some sa ->
  ending (Verify f l) = Returns (matches f l sa)
  /\ (matches f l sa = true
      <-> (ListenerFilter.Address f = ""
           \/ EqualFold (SocketAddress.Address sa) (ListenerFilter.Address f) = true)
          /\ (ListenerFilter.Port f = 0%N
              \/ SocketAddress.GetPortValue (Some sa) = ListenerFilter.Port f)
          /\ (ListenerFilter.Type' f = ""
              \/ EqualFold (retrieveListenerType l) (ListenerFilter.Type' f) = true)).
Proof.
  intros Hsa. rewrite (Verify_socket f l sa Hsa). split; [reflexivity|].
  unfold matches, address_check, port_check, type_check.
  rewrite !andb_true_iff, !orb_true_iff, !String.eqb_eq, !N.eqb_eq. tauto.
Qed.

(** X2: with no address to match, [Verify] returns on every listener, also
    on one that is not bound to a socket address: there the port compared is
    0, so the listener passes only a filter without port, and then by its
    type. *)
Theorem Verify_without_address_returns (f : ListenerFilter.t) (l : Listener.t) :
  ListenerFilter.Address f = "" ->
  ending (Verify f l) = Returns (verdict f l)
  /\ (socket_address l = None ->
      verdict f l = (ListenerFilter.Port f =? 0)%N && type_check f l).
Proof.
  intros Ha. rewrite Verify_outcome. unfold reads_nil_address.
  rewrite Ha. cbn [String.eqb negb andb]. split; [reflexivity|].
  intros Hsa. unfold verdict. rewrite Hsa. reflexivity.
Qed.

(** X3: [Verify] panics exactly when the filter has an address to match and
    the listener is not bound to a socket address; the panic is the nil
    dereference, and in every other case [Verify] returns. *)
Theorem Verify_panics_iff (f : ListenerFilter.t) (l : Listener.t) :
  (ending (Verify f l) = Panics nil_dereference
   <-> ListenerFilter.Address f <> "" /\ socket_address l = None)
  /\ (ending (Verify f l) = Panics nil_dereference
      \/ ending (Verify f l) = Returns (verdict f l)).
Proof.
  rewrite Verify_outcome, <- reads_nil_address_true.
  destruct (reads_nil_address f l); cbn [ending snd]; split.
  - split; reflexivity.
  - left. reflexivity.
  - split; discriminate.
  - right. reflexivity.
Qed.

(** X4: [Verify] calls the classifier at most once, and only after the
    address check and the port check have passed with a type to match; it
    writes nothing and decodes nothing. *)
Theorem Verify_classifies_lazily (f : ListenerFilter.t) (l : Listener.t)
  (sa : SocketAddress.t) :
  socket_address l = Some sa ->
  classified (trace (Verify f l))
  = (if negb (ListenerFilter.Type' f =? "") && address_check f sa && port_check f sa
     then [l] else [])
  /\ stdout_of (trace (Verify f l)) = ""
  /\ unmarshalled (trace (Verify f l)) = [].
Proof.
  intros Hsa. rewrite (Verify_socket f l sa Hsa). unfold classifies.
  destruct (negb (ListenerFilter.Type' f =? "") && address_check f sa && port_check f sa);
    repeat split; reflexivity.
Qed.

End VerifyOutcome.

(** ** More on the printers *)

Section PrinterOutcome.
Context `{Imports}.



(** The loop of the dump on any collection. *)
Lemma dump_loop_outcome (f : ListenerFilter.t) (ls acc : list Listener.t) :
  exists t,
    dump_loop f ls acc
    = (t, if existsb (reads_nil_address f) ls then Panics nil_dereference
          else Returns (acc ++ selected f ls)%list)
    /\ stdout_of t = "".
Proof.
  revert acc. induction ls as [|l ls IH]; intros acc.
  - exists []. cbn. rewrite app_nil_r. split; reflexivity.
  - cbn [dump_loop existsb]. rewrite Verify_outcome.
    destruct (reads_nil_address f l); cbn [orb].
    + exists []. split; reflexivity.
    + unfold selected. cbn [filter]. fold (selected f ls).
      destruct (verdict f l).
      * destruct (IH (acc ++ [l])%list) as (t & Ht & Hout). cbv [bind ret]. rewrite Ht.
        eexists. split.
        -- f_equal. destruct (existsb (reads_nil_address f) ls); [reflexivity|].
           rewrite <- app_assoc. reflexivity.
        -- rewrite stdout_of_app, Hout. destruct (reaches_type_check f l); reflexivity.
      * destruct (IH acc) as (t & Ht & Hout). cbv [bind ret]. rewrite Ht.
        eexists. split; [reflexivity|].
        rewrite stdout_of_app, Hout. destruct (reaches_type_check f l); reflexivity.
Qed.


Lemma PrintListenerDump_outcome (c : ConfigWriter) (f : ListenerFilter.t)
  (ls : list Listener.t) :
  ending (retrieveSortedListenerSlice c) = Returns (Ok ls) ->
  if existsb (reads_nil_address f) ls
  then ending (PrintListenerDump c f) = Panics nil_dereference
       /\ stdout_of (trace (PrintListenerDump c f)) = ""
  else match MarshalIndent (selected f ls) "" "    " with
       | Ok out =>
           ending (PrintListenerDump c f) = Returns None
           /\ stdout_of (trace (PrintListenerDump c f)) = out ++ NL
       | Err e =>
           ending (PrintListenerDump c f)
           = Returns (Some ("failed to marshal listeners: " ++ e))
           /\ stdout_of (trace (PrintListenerDump c f)) = ""
       end.
Proof.
  intros E. apply retrieve_eta in E as (t0 & E & Hs).
  destruct (dump_loop_outcome f ls []) as (t & Ht & Hout). cbn [app] in Ht.
  unfold PrintListenerDump, setupListenerConfigWriter.
  rewrite E. cbv [bind ret tell]. rewrite Ht.
  destruct (existsb (reads_nil_address f) ls).
  - cbv [ending trace fst snd]. split; [reflexivity|].
    rewrite !stdout_of_app, Hs, Hout. reflexivity.
  - destruct (MarshalIndent (selected f ls) "" "    ") as [out|e];
      cbv [ending trace fst snd]; (split; [reflexivity|]);
      rewrite !stdout_of_app, Hs, Hout; cbn [app stdout_of append].
    + rewrite !append_nil_r. reflexivity.
    + reflexivity.
Qed.

End PrinterOutcome.

Section PrinterProperties.
Context `{Imports}.


Lemma existsb_false_iff {A} (p : A -> bool) (xs : list A) :
  existsb p xs = false <-> forall x, In x xs -> p x = false.
Proof.
  split.
  - intros E x Hx. destruct (p x) eqn:Ep; [|reflexivity].
    assert (existsb p xs = true) as E' by (apply existsb_exists; exists x; tauto).
    rewrite E in E'. discriminate.
  - intros Hall. destruct (existsb p xs) eqn:E; [|reflexivity].
    apply existsb_exists in E as (x & Hx & Ep). rewrite (Hall x Hx) in Ep. discriminate.
Qed.


Lemma selected_empty_filter (ls : list Listener.t) : selected empty_filter ls = ls.
Proof.
  unfold selected. induction ls as [|l ls IH]; [reflexivity|].
  cbn [filter]. rewrite IH. unfold verdict. destruct (socket_address l); reflexivity.
Qed.



(** X7: when the filter has no address to match, or every listener of the
    extracted collection is bound to a socket address, the dump either writes
    the serialisation of the listeners [Verify] accepts, in the collection's
    order, with a newline, and returns nil, or returns the wrapped
    serialisation error and writes nothing. *)
Theorem dump_serialises_selected (c : ConfigWriter) (f : ListenerFilter.t)
  (ls : list Listener.t) :
  ending (retrieveSortedListenerSlice c) = Returns (Ok ls) ->
  ListenerFilter.Address f = "" \/ Forall (fun l => has_socket_address l = true) ls ->
  match MarshalIndent (selected f ls) "" "    " with
  | Ok out =>
      ending (PrintListenerDump c f) = Returns None
      /\ stdout_of (trace (PrintListenerDump c f)) = out ++ NL
  | Err e =>
      ending (PrintListenerDump c f)
      = Returns (Some ("failed to marshal listeners: " ++ e))
      /\ stdout_of (trace (PrintListenerDump c f)) = ""
  end.
Proof.
  intros E Hsafe. pose proof (PrintListenerDump_outcome c f ls E) as Hout.
  replace (existsb (reads_nil_address f) ls) with false in Hout; [exact Hout|].
  symmetry. apply existsb_false_iff. intros l Hl. unfold reads_nil_address.
  destruct Hsafe as [Ha|Hall].
  - rewrite Ha. reflexivity.
  - rewrite Forall_forall in Hall. rewrite (Hall l Hl). apply andb_false_r.
Qed.

(** X8: the dump of an extracted collection panics exactly when the filter
    has an address to match and the collection holds a listener that is not
    bound to a socket address; it has then written nothing. *)
Theorem dump_panics_iff (c : ConfigWriter) (f : ListenerFilter.t)
  (ls : list Listener.t) :
  ending (retrieveSortedListenerSlice c) = Returns (Ok ls) ->
  (ending (PrintListenerDump c f) = Panics nil_dereference
   <-> ListenerFilter.Address f <> ""
       /\ exists l, In l ls /\ socket_address l = None)
  /\ (ending (PrintListenerDump c f) = Panics nil_dereference ->
      stdout_of (trace (PrintListenerDump c f)) = "").
Proof.
  intros E. pose proof (PrintListenerDump_outcome c f ls E) as Hout.
  destruct (existsb (reads_nil_address f) ls) eqn:Ex.
  - destruct Hout as [He Hs].
    split; [|intros _; exact Hs]. split; [|intros _; exact He].
    intros _. apply existsb_exists in Ex as (l & Hl & Er).
    apply reads_nil_address_true in Er as [Ha Hsa].
    split; [exact Ha|]. exists l. split; assumption.
  - assert (ending (PrintListenerDump c f) <> Panics nil_dereference) as Hne.
    { destruct (MarshalIndent (selected f ls) "" "    "); destruct Hout as [-> _];
        discriminate. }
    split; [|intros Hp; contradiction]. split; [intros Hp; contradiction|].
    intros (Ha & l & Hl & Hsa).
    assert (reads_nil_address f l = true) as Er
      by (apply reads_nil_address_true; split; assumption).
    rewrite (proj1 (existsb_false_iff _ _) Ex l Hl) in Er. discriminate.
Qed.


(** X10: with the empty filter the dump never panics, whatever the listeners
    are bound to: it serialises the whole extracted collection, or returns
    the wrapped serialisation error having written nothing. *)
Theorem dump_empty_filter_serialises_all (c : ConfigWriter) (ls : list Listener.t) :
  ending (retrieveSortedListenerSlice c) = Returns (Ok ls) ->
  match MarshalIndent ls "" "    " with
  | Ok out =>
      ending (PrintListenerDump c empty_filter) = Returns None
      /\ stdout_of (trace (PrintListenerDump c empty_filter)) = out ++ NL
  | Err e =>
      ending (PrintListenerDump c empty_filter)
      = Returns (Some ("failed to marshal listeners: " ++ e))
      /\ stdout_of (trace (PrintListenerDump c empty_filter)) = ""
  end.
Proof.
  intros E. pose proof (PrintListenerDump_outcome c empty_filter ls E) as Hout.
  replace (existsb (reads_nil_address empty_filter) ls) with false in Hout.
  - rewrite selected_empty_filter in Hout. exact Hout.
  - symmetry. apply existsb_false_iff. intros l _. reflexivity.
Qed.

(** X11: when the extraction fails, each printer returns the extraction's
    error unchanged and does nothing more: its events are those
    of the extraction alone, with no call of the classifier and nothing
    written. *)
Theorem printers_return_extraction_error (c : ConfigWriter) (f : ListenerFilter.t)
  (e : error) :
  ending (retrieveSortedListenerSlice c) = Returns (Err e) ->
  PrintListenerSummary c f = (trace (retrieveSortedListenerSlice c), Returns (Some e))
  /\ PrintListenerDump c f = (trace (retrieveSortedListenerSlice c), Returns (Some e))
  /\ stdout_of (trace (retrieveSortedListenerSlice c)) = ""
  /\ classified (trace (retrieveSortedListenerSlice c)) = [].
Proof.
  intros E. unfold PrintListenerSummary, PrintListenerDump, setupListenerConfigWriter.
  unfold ending, trace in *. destruct (retrieveSortedListenerSlice c) as [t o] eqn:Er.
  cbn [fst snd] in *. subst o. cbv [bind ret]. rewrite !app_nil_r.
  split; [reflexivity|]. split; [reflexivity|].
  assert (t = trace (retrieveSortedListenerSlice c)) as -> by (rewrite Er; reflexivity).
  split; [apply retrieve_silent|].
  destruct (configDump c) as [w|] eqn:Hc.
  - destruct (GetListenerConfigDump w) as [d|e'] eqn:Hw.
    + rewrite (retrieve_primed c w d Hc Hw). unfold extraction_of, trace. cbn [fst].
      induction (map normalise (attempted (payloads d))) as [|a ps IH]; [reflexivity|exact IH].
    + rewrite (retrieve_no_section c w e' Hc Hw). reflexivity.
  - rewrite (retrieve_unprimed c Hc). reflexivity.
Qed.

End PrinterProperties.

(** ** More on the classifier *)

From Stdlib Require Import Permutation.

Section ClassifierProperties.
Context `{Imports}.

Lemma filter_length_perm {A} (p : A -> bool) (xs ys : list A) :
  Permutation xs ys -> length (filter p xs) = length (filter p ys).
Proof.
  intros HP. induction HP as [|x xs ys _ IH|x y xs|xs ys zs _ IH1 _ IH2].
  - reflexivity.
  - cbn [filter]. destruct (p x); cbn [length]; rewrite IH; reflexivity.
  - cbn [filter]. destruct (p x), (p y); reflexivity.
  - rewrite IH1. exact IH2.
Qed.

Lemma filter_nonempty_iff {A} (p : A -> bool) (xs : list A) :
  (0 < Z.of_nat (length (filter p xs)))%Z <-> exists x, In x xs /\ p x = true.
Proof.
  split.
  - destruct (filter p xs) as [|x r] eqn:E; [cbn; lia|]. intros _.
    assert (In x (filter p xs)) as Hx by (rewrite E; left; reflexivity).
    apply filter_In in Hx. exists x. exact Hx.
  - intros (x & Hx & Hp).
    assert (In x (filter p xs)) as Hin by (apply filter_In; split; assumption).
    destruct (filter p xs); [contradiction|]. cbn [length]. lia.
Qed.

Lemma label_by_counts (l : Listener.t) :
  ((retrieveListenerType l = "HTTP" \/ retrieveListenerType l = "HTTP+TCP")
   <-> (0 < http_count l)%Z)
  /\ ((retrieveListenerType l = "TCP" \/ retrieveListenerType l = "HTTP+TCP")
      <-> (0 < tcp_count l)%Z).
Proof.
  rewrite retrieveListenerType_table. unfold decision_table.
  pose proof (http_count_nonneg l). pose proof (tcp_count_nonneg l).
  destruct (http_count l >? 0)%Z eqn:Eh; destruct (tcp_count l =? 0)%Z eqn:Et;
    destruct (tcp_count l >? 0)%Z eqn:Et'; destruct (http_count l =? 0)%Z eqn:Eh';
    cbn [andb]; try lia;
    (split; (split; [intros [E|E]; try discriminate E; lia
                    |intros Hpos; try lia; auto])).
Qed.

(** X12: the label depends only on which filters the listener has, not on
    how they are grouped into filter chains nor on their order: two
    listeners whose filters, taken over all chains, are a permutation of one
    another get the same label. *)
Theorem label_ignores_grouping_and_order (l1 l2 : Listener.t) :
  Permutation (all_filters l1) (all_filters l2) ->
  retrieveListenerType l1 = retrieveListenerType l2.
Proof.
  intros HP. rewrite !retrieveListenerType_table. unfold http_count, tcp_count.
  rewrite (filter_length_perm is_http_filter _ _ HP),
    (filter_length_perm is_tcp_filter _ _ HP).
  reflexivity.
Qed.

(** X13: the label is "HTTP" or "HTTP+TCP" exactly when some filter of some
    chain is named as the HTTP connection manager. *)
Theorem http_label_iff_http_filter (l : Listener.t) :
  (retrieveListenerType l = "HTTP" \/ retrieveListenerType l = "HTTP+TCP")
  <-> exists f, In f (all_filters l) /\ Filter.Name f = HTTPListener.
Proof.
  rewrite (proj1 (label_by_counts l)). unfold http_count.
  rewrite filter_nonempty_iff. unfold is_http_filter.
  split; intros (f & Hf & Hn); exists f; (split; [exact Hf|]);
    apply String.eqb_eq; exact Hn.
Qed.

(** X14: the label is "TCP" or "HTTP+TCP" exactly when some filter of some
    chain is named as the TCP proxy and its typed configuration does not
    contain the black-hole marker. *)
Theorem tcp_label_iff_tcp_filter (l : Listener.t) :
  (retrieveListenerType l = "TCP" \/ retrieveListenerType l = "HTTP+TCP")
  <-> exists f, In f (all_filters l) /\ Filter.Name f = TCPListener
                /\ Contains (Any.GetValue (Filter.TypedConfig f)) BlackHoleCluster = false.
Proof.
  rewrite (proj2 (label_by_counts l)). unfold tcp_count.
  rewrite filter_nonempty_iff. unfold is_tcp_filter.
  split; intros (f & Hf & Hn); exists f; (split; [exact Hf|]).
  - apply andb_true_iff in Hn as [Hn Hc]. apply String.eqb_eq in Hn.
    apply negb_true_iff in Hc. split; assumption.
  - destruct Hn as [Hn Hc]. rewrite Hn, Hc. reflexivity.
Qed.

Lemma Contains_empty_text (sub : string) : sub <> "" -> Contains "" sub = false.
Proof. destruct sub; [contradiction|reflexivity]. Qed.

(** X15: a TCP proxy filter without typed configuration counts as TCP: the
    nil-safe getters give it the empty text, which contains no marker that
    is not empty, so a listener that has such a filter is labelled "TCP" or
    "HTTP+TCP". *)
Theorem tcp_filter_without_typed_config_counts (l : Listener.t) (f : Filter.t) :
  BlackHoleCluster <> "" ->
  In f (all_filters l) -> Filter.Name f = TCPListener -> Filter.TypedConfig f = None ->
  retrieveListenerType l = "TCP" \/ retrieveListenerType l = "HTTP+TCP".
Proof.
  intros Hm Hf Hn Hc. apply (proj2 (label_by_counts l)). unfold tcp_count.
  apply filter_nonempty_iff. exists f. split; [exact Hf|].
  unfold is_tcp_filter. rewrite Hn, Hc. cbn [Any.GetValue].
  rewrite (Contains_empty_text _ Hm). reflexivity.
Qed.

End ClassifierProperties.

(** ** More on the extraction *)

Section ExtractionProperties.
Context `{Imports}.

Lemma unmarshalled_map (ps : list Any.t) : unmarshalled (map EvUnmarshal ps) = ps.
Proof. induction ps as [|a ps IH]; [reflexivity|]. cbn. rewrite IH. reflexivity. Qed.

(** The payloads the extraction hands to the decoder. *)
Lemma retrieve_unmarshalled (c : ConfigWriter) :
  unmarshalled (trace (retrieveSortedListenerSlice c))
  = match configDump c with
    | Some w =>
        match GetListenerConfigDump w with
        | Ok d => map normalise (attempted (payloads d))
        | Err _ => []
        end
    | None => []
    end.
Proof.
  destruct (configDump c) as [w|] eqn:Hc.
  - destruct (GetListenerConfigDump w) as [d|e] eqn:Hw.
    + rewrite (retrieve_primed c w d Hc Hw). apply unmarshalled_map.
    + rewrite (retrieve_no_section c w e Hc Hw). reflexivity.
  - rewrite (retrieve_unprimed c Hc). reflexivity.
Qed.

(** X16: whatever type a payload declares in the dump, the decoder receives
    it declared as a v3 listener. *)
Theorem decoder_receives_v3_type (c : ConfigWriter) :
  Forall (fun a => Any.TypeUrl a = ListenerType)
         (unmarshalled (trace (retrieveSortedListenerSlice c))).
Proof.
  rewrite retrieve_unmarshalled.
  destruct (configDump c) as [w|]; [|constructor].
  destruct (GetListenerConfigDump w) as [d|e]; [|constructor].
  apply Forall_forall. intros a Ha. apply in_map_iff in Ha as (b & <- & _). reflexivity.
Qed.

(** X17: a successful extraction has called the decoder once on every
    payload of the dump, dynamic before static and in section order, with
    the payload's bytes unchanged, and returns as many listeners as the dump
    has payloads. *)
Theorem successful_extraction_decodes_each_payload_once (c : ConfigWriter)
  (w : Wrapper) (d : ListenersConfigDump.t) (ls : list Listener.t) :
  configDump c = Some w -> GetListenerConfigDump w = Ok d ->
  ending (retrieveSortedListenerSlice c) = Returns (Ok ls) ->
  unmarshalled (trace (retrieveSortedListenerSlice c)) = map normalise (payloads d)
  /\ map Any.Value (unmarshalled (trace (retrieveSortedListenerSlice c)))
     = map Any.Value (payloads d)
  /\ length ls = length (payloads d).
Proof.
  intros Hc Hw. rewrite retrieve_unmarshalled, Hc, Hw, (retrieve_primed c w d Hc Hw).
  unfold extraction_of, ending. cbn [snd].
  destruct (decode_all (payloads d)) as [ls'|e] eqn:Ed; [|discriminate].
  rewrite (attempted_all _ _ Ed). intros E.
  split; [reflexivity|]. split.
  - rewrite map_map. reflexivity.
  - destruct ls'; [discriminate|]. injection E as <-.
    exact (decode_all_length _ _ Ed).
Qed.

(** X18: when the dump has no listener section, the extraction returns the
    section's error behind the prefix "listener dump: " without a call of
    the decoder, and both printers return that error and write nothing. *)
Theorem missing_listener_section_is_reported (c : ConfigWriter) (w : Wrapper)
  (e : error) (f : ListenerFilter.t) :
  configDump c = Some w -> GetListenerConfigDump w = Err e ->
  retrieveSortedListenerSlice c = ([], Returns (Err ("listener dump: " ++ e)))
  /\ PrintListenerSummary c f = ([], Returns (Some ("listener dump: " ++ e)))
  /\ PrintListenerDump c f = ([], Returns (Some ("listener dump: " ++ e))).
Proof.
  intros Hc Hw. pose proof (retrieve_no_section c w e Hc Hw) as E.
  unfold PrintListenerSummary, PrintListenerDump, setupListenerConfigWriter.
  rewrite E. repeat split; reflexivity.
Qed.

(** X19: the extraction never panics, and an error it returns is the "not
    primed" message, the "no listeners found" message, or an error of the
    listener section or of the decoder behind its prefix. *)
Theorem extraction_errors_are_classified (c : ConfigWriter) :
  (exists r, ending (retrieveSortedListenerSlice c) = Returns r)
  /\ (forall e, ending (retrieveSortedListenerSlice c) = Returns (Err e) ->
        e = "config writer has not been primed"
        \/ e = "no listeners found"
        \/ (exists e', e = "listener dump: " ++ e')
        \/ (exists e', e = "unmarshal listener: " ++ e')).
Proof.
  split; [apply retrieve_returns|]. intros e.
  destruct (configDump c) as [w|] eqn:Hc.
  - destruct (GetListenerConfigDump w) as [d|e0] eqn:Hw.
    + rewrite (retrieve_primed c w d Hc Hw). unfold extraction_of, ending. cbn [snd].
      destruct (decode_all (payloads d)) as [[|l ls]|e1]; intros E;
        try discriminate E; injection E as <-.
      * right; left. reflexivity.
      * right; right; right. exists e1. reflexivity.
    + rewrite (retrieve_no_section c w e0 Hc Hw). intros E. injection E as <-.
      right; right; left. exists e0. reflexivity.
  - rewrite (retrieve_unprimed c Hc). intros E. injection E as <-. left. reflexivity.
Qed.

(** X20: the extraction depends on the dump only through its sequence of
    payloads: two dumps with the same payloads in the same order, however
    divided between the dynamic and the static section, give the same result
    and the same decoder calls, so no provenance is retained. *)
Theorem extraction_depends_on_payloads_only (c1 c2 : ConfigWriter) (w1 w2 : Wrapper)
  (d1 d2 : ListenersConfigDump.t) :
  configDump c1 = Some w1 -> GetListenerConfigDump w1 = Ok d1 ->
  configDump c2 = Some w2 -> GetListenerConfigDump w2 = Ok d2 ->
  payloads d1 = payloads d2 ->
  retrieveSortedListenerSlice c1 = retrieveSortedListenerSlice c2.
Proof.
  intros Hc1 Hw1 Hc2 Hw2 Hp.
  rewrite (retrieve_primed c1 w1 d1 Hc1 Hw1), (retrieve_primed c2 w2 d2 Hc2 Hw2).
  unfold extraction_of. rewrite Hp. reflexivity.
Qed.

End ExtractionProperties.

(** ** The further properties on the sample inputs *)

Lemma Verify_decides_socket_listener_witness :
  ending (@Verify imports (ListenerFilter.Build "10.0.0.1" 8080 "http") http_listener)
  = Returns true.
Proof.
  apply (@Verify_decides_socket_listener imports
           (ListenerFilter.Build "10.0.0.1" 8080 "http") http_listener
           (SocketAddress.Build "10.0.0.1" (SocketAddress.PortValue 8080))).
  reflexivity.
Defined.

Lemma Verify_without_address_returns_witness :
  ending (@Verify imports (ListenerFilter.Build "" 0 "tcp") pipe_listener) = Returns true.
Proof.
  apply (@Verify_without_address_returns imports
           (ListenerFilter.Build "" 0 "tcp") pipe_listener).
  reflexivity.
Defined.

Lemma Verify_classifies_lazily_witness :
  classified (trace (@Verify imports (ListenerFilter.Build "" 9000 "http") http_listener))
  = [].
Proof.
  apply (@Verify_classifies_lazily imports
           (ListenerFilter.Build "" 9000 "http") http_listener
           (SocketAddress.Build "10.0.0.1" (SocketAddress.PortValue 8080))).
  reflexivity.
Defined.



Lemma dump_serialises_selected_witness :
  ending (@PrintListenerDump imports (primed pipe_dump) (ListenerFilter.Build "" 0 "tcp"))
  = Returns None
  /\ stdout_of (trace (@PrintListenerDump imports (primed pipe_dump)
                         (ListenerFilter.Build "" 0 "tcp")))
     = "[" ++ NL ++ "    " ++ "agent " ++ NL ++ "]" ++ NL.
Proof.
  apply (@dump_serialises_selected imports (primed pipe_dump)
           (ListenerFilter.Build "" 0 "tcp") [http_listener; pipe_listener] eq_refl).
  left. reflexivity.
Defined.

Lemma dump_panics_iff_witness :
  ending (@PrintListenerDump imports (primed pipe_dump)
            (ListenerFilter.Build "10.0.0.9" 0 ""))
  = Panics nil_dereference.
Proof.
  apply (@dump_panics_iff imports (primed pipe_dump) (ListenerFilter.Build "10.0.0.9" 0 "")
           [http_listener; pipe_listener] eq_refl).
  split; [discriminate|]. exists pipe_listener. split; [right; left; reflexivity|reflexivity].
Defined.


Lemma dump_empty_filter_serialises_all_witness :
  ending (@PrintListenerDump imports (primed pipe_dump) empty_filter) = Returns None
  /\ stdout_of (trace (@PrintListenerDump imports (primed pipe_dump) empty_filter))
     = "[" ++ NL ++ "    " ++ "10.0.0.1_8080 agent " ++ NL ++ "]" ++ NL.
Proof.
  apply (@dump_empty_filter_serialises_all imports (primed pipe_dump)
           [http_listener; pipe_listener] eq_refl).
Defined.

Lemma printers_return_extraction_error_witness :
  @PrintListenerSummary imports unprimed empty_filter
  = ([], Returns (Some "config writer has not been primed"))
  /\ @PrintListenerDump imports unprimed empty_filter
     = ([], Returns (Some "config writer has not been primed")).
Proof.
  destruct (@printers_return_extraction_error imports unprimed empty_filter
              "config writer has not been primed" eq_refl) as (Hs & Hd & _).
  split; [exact Hs|exact Hd].
Defined.

Lemma label_ignores_grouping_and_order_witness :
  @retrieveListenerType imports
    (Listener.Build "one-chain" None [FilterChain.Build [tcp_filter; http_filter]])
  = @retrieveListenerType imports mixed_listener.
Proof.
  apply (@label_ignores_grouping_and_order imports
           (Listener.Build "one-chain" None [FilterChain.Build [tcp_filter; http_filter]])
           mixed_listener).
  apply perm_swap.
Defined.

Lemma tcp_filter_without_typed_config_counts_witness :
  @retrieveListenerType imports
    (Listener.Build "legacy" None [FilterChain.Build [Filter.Build "envoy.tcp_proxy" None]])
  = "TCP"
  \/ @retrieveListenerType imports
       (Listener.Build "legacy" None [FilterChain.Build [Filter.Build "envoy.tcp_proxy" None]])
     = "HTTP+TCP".
Proof.
  apply (@tcp_filter_without_typed_config_counts imports
           (Listener.Build "legacy" None
              [FilterChain.Build [Filter.Build "envoy.tcp_proxy" None]])
           (Filter.Build "envoy.tcp_proxy" None)).
  - discriminate.
  - left. reflexivity.
  - reflexivity.
  - reflexivity.
Defined.

Lemma successful_extraction_decodes_each_payload_once_witness :
  unmarshalled (trace (@retrieveSortedListenerSlice imports (primed scenario_dump)))
  = [Any.Build v3_ListenerType "http"; Any.Build v3_ListenerType "tcp"]
  /\ map Any.Value
       (unmarshalled (trace (@retrieveSortedListenerSlice imports (primed scenario_dump))))
     = ["http"; "tcp"]
  /\ length [http_listener; tcp_listener] = 2.
Proof.
  apply (@successful_extraction_decodes_each_payload_once imports (primed scenario_dump)
           (Some scenario_dump) scenario_dump [http_listener; tcp_listener]);
    reflexivity.
Defined.

Lemma missing_listener_section_is_reported_witness :
  @retrieveSortedListenerSlice imports (@Build_ConfigWriter imports (Some None))
  = ([], Returns (Err "listener dump: config dump has no listener section"))
  /\ @PrintListenerSummary imports (@Build_ConfigWriter imports (Some None)) empty_filter
     = ([], Returns (Some "listener dump: config dump has no listener section"))
  /\ @PrintListenerDump imports (@Build_ConfigWriter imports (Some None)) empty_filter
     = ([], Returns (Some "listener dump: config dump has no listener section")).
Proof.
  apply (@missing_listener_section_is_reported imports
           (@Build_ConfigWriter imports (Some None)) None
           "config dump has no listener section" empty_filter);
    reflexivity.
Defined.

Lemma extraction_depends_on_payloads_only_witness :
  @retrieveSortedListenerSlice imports
    (primed (ListenersConfigDump.Build [] [dynamic_entry "http"; dynamic_entry "tcp"]))
  = @retrieveSortedListenerSlice imports
      (primed (ListenersConfigDump.Build
                 [StaticListener.Build (Some (Any.Build v2_ListenerType "tcp"))]
                 [dynamic_entry "http"])).
Proof.
  apply (@extraction_depends_on_payloads_only imports _ _
           (Some (ListenersConfigDump.Build [] [dynamic_entry "http"; dynamic_entry "tcp"]))
           (Some (ListenersConfigDump.Build
                    [StaticListener.Build (Some (Any.Build v2_ListenerType "tcp"))]
                    [dynamic_entry "http"]))
           (ListenersConfigDump.Build [] [dynamic_entry "http"; dynamic_entry "tcp"])
           (ListenersConfigDump.Build
              [StaticListener.Build (Some (Any.Build v2_ListenerType "tcp"))]
              [dynamic_entry "http"]));
    reflexivity.
Defined.
